(** * Windowing adapters of the TimeVAE notebook (dl/notebooks/time_vae.py)

    A shallow embedding of [time_delay_embed], [TimeVAEDataset],
    [TimeVAEDataModule] and [VAEDecoder], together with the slice of
    Python, pandas and torch semantics that these definitions rely on. *)

From Stdlib Require Import ZArith List Sorted Lia Reals Lra.
From Stdlib Require Import Floats.SpecFloat.
From stdpp Require Import base list strings gmap.

Local Open Scope string_scope.
Local Open Scope list_scope.
Local Open Scope Z_scope.

(** ** Python fragments *)

(** Exception classes raised by the modelled code (messages are elided). *)
Inductive PyError : Type :=
  | IndexError
  | TypeError
  | ValueError
  | KeyError
  | OverflowError
  | RuntimeError
  | InvalidIndexError
  | AttributeError (name : string)
  | InvalidParameter.

Inductive outcome (A : Type) : Type :=
  | Return (a : A)
  | Raise (e : PyError).
Arguments Return {A} a.
Arguments Raise {A} e.

Definition succeeds {A} (o : outcome A) : Prop := ∃ a, o = Return a.

(** [slice.indices]: how one bound of [l[start:stop]] is normalised against
    the length [n] of the sequence (step 1). *)
Definition clamp_bound (n i : Z) : Z :=
  if i <? 0 then Z.max (i + n) 0 else Z.min i n.

(** [l[start:stop]] with Python's treatment of negative, missing and
    overshooting bounds. *)
Definition py_slice {A} (l : list A) (start stop : option Z) : list A :=
  let n := Z.of_nat (length l) in
  let lo := from_option (clamp_bound n) 0 start in
  let hi := from_option (clamp_bound n) n stop in
  take (Z.to_nat (hi - lo)) (drop (Z.to_nat lo) l).

(** Number of elements of [range(start, stop, step)], [step <> 0]. *)
Definition range_length (start stop step : Z) : Z :=
  if 0 <? step
  then (if start <? stop then (stop - start - 1) `div` step + 1 else 0)
  else (if stop <? start then (start - stop - 1) `div` (- step) + 1 else 0).

(** [range(start, stop, step)], which rejects a zero step. *)
Definition py_range (start stop step : Z) : outcome (list Z) :=
  if step =? 0 then Raise ValueError
  else Return (map (λ k : nat, start + Z.of_nat k * step)
                   (seq 0 (Z.to_nat (range_length start stop step)))).

(** The largest int64, [2**63 - 1]; on a 64-bit build also [sys.maxsize]. *)
Definition int64_max : Z := 9223372036854775807.
Definition sys_maxsize : Z := int64_max.

Definition fits_int64 (n : Z) : bool := (- int64_max - 1 <=? n) && (n <=? int64_max).

(** Python's [len] refuses a negative [__len__] with [ValueError] and one
    beyond [sys.maxsize] with [OverflowError]. *)
Definition py_len (dunder_len : Z) : outcome Z :=
  if dunder_len <? 0 then Raise ValueError
  else if sys_maxsize <? dunder_len then Raise OverflowError
  else Return dunder_len.

(** [a < b] and [a >= b] on values that are an int or [None]. *)
Definition py_lt (a b : option Z) : outcome bool :=
  match a, b with
  | Some x, Some y => Return (x <? y)
  | _, _ => Raise TypeError
  end.

Definition py_ge (a b : option Z) : outcome bool :=
  match a, b with
  | Some x, Some y => Return (y <=? x)
  | _, _ => Raise TypeError
  end.

(** ** pandas fragments *)

Inductive label : Type :=
  | LInt (n : Z)
  | LStr (s : string).

Global Instance label_eq_dec : EqDecision label.
Proof. solve_decision. Defined.

(** The classes of row index that matter to the validation. *)
Inductive IndexType : Type :=
  | DatetimeIndex
  | RangeIndex
  | Index.

Global Instance IndexType_eq_dec : EqDecision IndexType.
Proof. solve_decision. Defined.

Section Pandas.
Context {V : Type}.

(** A cell holds a value or is null. *)
Definition cell : Type := option V.

(** A 2-d array as returned by [.values]. *)
Definition ndarray : Type := list (list cell).

(** A table: the class of its index, its column labels and its rows, each
    with the index label it carries. *)
Record DataFrame : Type := mkDataFrame {
  index_type : IndexType;
  columns : list label;
  rows : list (label * list cell)
}.

Definition df_len (df : DataFrame) : Z := Z.of_nat (length (rows df)).
Definition values (df : DataFrame) : ndarray := (rows df).*2.
Definition index (df : DataFrame) : list label := (rows df).*1.

(** [df[start:stop]] and [df.iloc[start:stop]]: positional on the rows. *)
Definition df_slice (df : DataFrame) (start stop : option Z) : DataFrame :=
  {| index_type := index_type df;
     columns := columns df;
     rows := py_slice (rows df) start stop |}.

(** [df.isnull().values.any()] *)
Definition isnull_any (df : DataFrame) : bool :=
  existsb (existsb (λ c : cell, bool_decide (c = None))) (values df).
End Pandas.
Arguments DataFrame V : clear implicits.
Arguments ndarray V : clear implicits.
Arguments cell V : clear implicits.

(** Order of [Index.sort_values] on labels: integers (timestamps are
    nanosecond counts) before strings. *)
Definition label_leb (a b : label) : bool :=
  match a, b with
  | LInt x, LInt y => x <=? y
  | LInt _, LStr _ => true
  | LStr _, LInt _ => false
  | LStr s, LStr t => String.leb s t
  end.

Fixpoint sort_insert (x : label) (l : list label) : list label :=
  match l with
  | [] => [x]
  | y :: l' => if label_leb x y then x :: l else y :: sort_insert x l'
  end.

(** [Index.sort_values()] *)
Definition sort_values (l : list label) : list label :=
  foldr sort_insert [] l.

(** [Index.equals] *)
Definition index_equals (a b : list label) : bool := bool_decide (a = b).

(** ** [TimeVAEDataset] *)

(** The key given to [__getitem__]: an int or a [slice] object whose three
    attributes are each an int or [None]. *)
Inductive key : Type :=
  | KInt (idx : Z)
  | KSlice (start stop step : option Z).

Module TimeVAEDataset.
Section Methods.
Context {V : Type}.

(** Instance attributes, as assigned by [__init__]. *)
Record t : Type := mk {
  dataframe : DataFrame V;
  window_size : Z;
  dataframe_rows : Z;
  length : Z
}.

(** What a method can touch: the instance (with the table it refers to)
    and the sink of loguru's [logger]. *)
Record World : Type := mkWorld {
  self : t;
  sink : list string
}.

(** Method bodies: state passing over [World], with exceptions. *)
Definition M (A : Type) : Type := World → outcome A * World.

Definition ret {A} (a : A) : M A := λ w, (Return a, w).
Definition raise {A} (e : PyError) : M A := λ w, (Raise e, w).
Definition bind {A B} (m : M A) (k : A → M B) : M B :=
  λ w, match m w with
       | (Return a, w') => k a w'
       | (Raise e, w') => (Raise e, w')
       end.
Definition lift {A} (o : outcome A) : M A := λ w, (o, w).
Definition getattr {A} (field : t → A) : M A := λ w, (Return (field (self w)), w).
Definition setattr (update : t → t) : M unit :=
  λ w, (Return tt, {| self := update (self w); sink := sink w |}).
Definition logger_warning (msg : string) : M unit :=
  λ w, (Return tt, {| self := self w; sink := sink w ++ [msg] |}).

Notation "x <- m ;; k" := (bind m (λ x, k))
  (at level 100, m at next level, right associativity).
Notation "m ;;; k" := (bind m (λ _, k))
  (at level 100, right associativity).

(** A list comprehension whose element expression is a method call. *)
Fixpoint comprehension {A B} (f : A → M B) (l : list A) : M (list B) :=
  match l with
  | [] => ret []
  | a :: l' => b <- f a ;; bs <- comprehension f l' ;; ret (b :: bs)
  end.

Definition __init__ (dataframe : DataFrame V) (window_size : Z) : t :=
  let dataframe_rows := df_len dataframe in
  {| dataframe := dataframe;
     window_size := window_size;
     dataframe_rows := dataframe_rows;
     length := dataframe_rows - window_size + 1 |}.

Definition moving_slicing (idx : Z) : M (ndarray V) :=
  df <- getattr dataframe ;;
  ws <- getattr window_size ;;
  ret (values (df_slice df (Some idx) (Some (ws + idx)))).

Definition _validate_dataframe : M unit :=
  df <- getattr dataframe ;;
  if negb (bool_decide (index_type df = DatetimeIndex)) then raise TypeError
  else
    let has_na := isnull_any df in
    (if has_na then logger_warning "Dataframe has null" else ret tt) ;;;
    let has_index_sorted := index_equals (index df) (sort_values (index df)) in
    if negb has_index_sorted
    then logger_warning "Dataframe index is not sorted"
    else ret tt.

(** What [__getitem__] hands back: one window, or a list of windows. *)
Inductive item : Type :=
  | Window (w : ndarray V)
  | Windows (ws : list (ndarray V)).

(** [range(start, stop, step)] on slice attributes; [None] is no int. *)
Definition range_of (start stop : option Z) (step : Z) : outcome (list Z) :=
  match start, stop with
  | Some a, Some b => py_range a b step
  | _, _ => Raise TypeError
  end.

Definition __getitem__ (idx : key) : M item :=
  match idx with
  | KSlice start stop step =>
      len <- getattr length ;;
      low <- lift (py_lt start (Some 0)) ;;
      out <- (if low : bool then ret true else lift (py_ge stop (Some len))) ;;
      if out : bool then raise IndexError
      else
        let step := match step with Some s => s | None => 1 end in
        indices <- lift (range_of start stop step) ;;
        ws <- comprehension moving_slicing indices ;;
        ret (Windows ws)
  | KInt idx =>
      len <- getattr length ;;
      if len <=? idx then raise IndexError
      else w <- moving_slicing idx ;; ret (Window w)
  end.

Definition __len__ : M Z := getattr length.

(** [len(dataset)] *)
Definition len : M Z := n <- __len__ ;; lift (py_len n).
End Methods.
Arguments t V : clear implicits.
Arguments World V : clear implicits.
Arguments item V : clear implicits.
End TimeVAEDataset.

(** ** [time_delay_embed] *)

Definition obind {A B} (o : outcome A) (k : A → outcome B) : outcome B :=
  match o with
  | Return a => k a
  | Raise e => Raise e
  end.

Notation "'let*' x := o 'in' k" := (obind o (λ x, k))
  (at level 10, x name, o at level 100, k at level 200).

(** A [for] loop that appends one computed element per item. *)
Fixpoint for_each {A B} (f : A → outcome B) (l : list A) : outcome (list B) :=
  match l with
  | [] => Return []
  | a :: l' => let* b := f a in let* bs := for_each f l' in Return (b :: bs)
  end.

Section Embedding.
Context {V : Type}.

(** Iterating [df.rolling(window)]: one frame per row [i], made of the rows
    [max(0, i + 1 - window) .. i]; a negative window is refused.  The bounds
    of the frames are computed in the integer type of the positions, int64,
    which is wide enough for every row of the table, and a window beyond
    that type overflows before the first frame is yielded. *)
Definition rolling (df : DataFrame V) (window : Z) : outcome (list (DataFrame V)) :=
  if window <? 0 then Raise ValueError
  else if Z.max int64_max (df_len df) <? window then Raise OverflowError
  else
    let n := df_len df in
    let clip x := Z.max 0 (Z.min x n) in
    Return (map (λ i : nat,
                   let e := Z.of_nat i + 1 in
                   df_slice df (Some (clip (e - window))) (Some (clip e)))
                (seq 0 (Z.to_nat n))).

(** [df.t]: the column named [t], as an attribute. *)
Definition column_attr (df : DataFrame V) (name : string) : outcome (list (cell V)) :=
  match list_find (λ c, c = LStr name) (columns df) with
  | Some (j, _) => Return (map (λ r, default None (r.2 !! j)) (rows df))
  | None => Raise (AttributeError name)
  end.

(** [series.iloc[0]] *)
Definition iloc0 (series : list (cell V)) : outcome (cell V) :=
  match series with
  | c :: _ => Return c
  | [] => Raise IndexError
  end.

(** [df.reset_index(drop=True)] *)
Definition reset_index (df : DataFrame V) : DataFrame V :=
  {| index_type := RangeIndex;
     columns := columns df;
     rows := imap (λ i r, (LInt (Z.of_nat i), r.2)) (rows df) |}.

(** Keep the entries of [row] whose column label passes [keep]. *)
Definition select_cells (keep : label → bool) (cols : list label)
    (row : list (cell V)) : list (cell V) :=
  (filter (λ cv, keep cv.1 = true) (zip cols row)).*2.

(** [df.drop(columns=[name])] *)
Definition drop_column (df : DataFrame V) (name : string) : outcome (DataFrame V) :=
  let keep c := negb (bool_decide (c = LStr name)) in
  if bool_decide (LStr name ∈ columns df)
  then Return {| index_type := index_type df;
                 columns := filter (λ c, keep c = true) (columns df);
                 rows := map (λ r, (r.1, select_cells keep (columns df) r.2)) (rows df) |}
  else Raise KeyError.

(** [df.T] *)
Definition transpose (df : DataFrame V) : DataFrame V :=
  {| index_type := Index;
     columns := index df;
     rows := imap (λ j c, (c, map (λ r, default None (r.2 !! j)) (rows df)))
                  (columns df) |}.

(** Union of the frames' columns, in order of first appearance. *)
Definition union_columns (frames : list (DataFrame V)) : list label :=
  foldl (λ acc f, acc ++ filter (λ c, c ∉ acc) (columns f)) [] frames.

(** One row laid out on the columns [all]; absent columns are null. *)
Definition reindex_row (cols all : list label) (row : list (cell V)) : list (cell V) :=
  map (λ c, match list_find (λ c', c' = c) cols with
            | Some (j, _) => default None (row !! j)
            | None => None
            end) all.

(** Labels that step evenly, as the labels of a range do. *)
Definition evenly_spaced (labels : list label) : bool :=
  match labels with
  | [] | [_] => true
  | LInt a :: LInt b :: _ =>
      negb (a =? b)
      && bool_decide (labels = (λ i : nat, LInt (a + Z.of_nat i * (b - a)))
                               <$> seq 0 (length labels))
  | _ => false
  end.

(** The class of the index of [pd.concat(frames)]: that of a lone frame;
    for several frames the class they share, where ranges put end to end
    stay a range only while their labels step evenly (or there is none);
    a plain [Index] otherwise. *)
Definition concat_index_type (frames : list (DataFrame V)) : IndexType :=
  match frames with
  | [] => Index
  | [f] => index_type f
  | f :: others =>
      if forallb (λ g, bool_decide (index_type g = index_type f)) others
      then match index_type f with
           | RangeIndex =>
               if evenly_spaced (mjoin (map index frames)) then RangeIndex else Index
           | class => class
           end
      else Index
  end.

(** [pd.concat(frames)], along the rows: frames that agree on their
    columns are stacked as they are; otherwise every row is laid out on the
    union of the columns, which needs unique labels in each frame. *)
Definition concat (frames : list (DataFrame V)) : outcome (DataFrame V) :=
  match frames with
  | [] => Raise ValueError
  | f :: others =>
      let index_type := concat_index_type frames in
      if forallb (λ g, bool_decide (columns g = columns f)) others
      then Return {| index_type := index_type;
                     columns := columns f;
                     rows := mjoin (map rows frames) |}
      else if forallb (λ g, bool_decide (NoDup (columns g))) frames
      then
        let all := union_columns frames in
        Return {| index_type := index_type;
                  columns := all;
                  rows := mjoin (map (λ g, map (λ r, (r.1, reindex_row (columns g) all r.2))
                                              (rows g)) frames) |}
      else Raise InvalidIndexError
  end.

Definition time_delay_embed (df : DataFrame V) (window_size : Z)
    : outcome (DataFrame V) :=
  let* windows := rolling df window_size in
  let* dfs_embedded :=
    for_each (λ i,
      let* t := column_attr i "t" in
      let* i_t := iloc0 t in
      let* dropped := drop_column (reset_index i) "t" in
      Return (reset_index (transpose dropped))) windows in
  let df_embedded := concat (py_slice dfs_embedded (Some (window_size - 1)) None) in
  df_embedded.
End Embedding.

(** ** [TimeVAEDataModule] *)

(** Python floats are IEEE 754 binary64 numbers. *)
Definition float : Type := spec_float.
Definition prec : Z := 53.
Definition emax : Z := 1024.

(** [float(n)] for an int [n]: rounded to nearest, refused when out of range. *)
Definition float_of_int (n : Z) : outcome float :=
  match binary_normalize prec emax n 0 false with
  | S754_infinity _ => Raise OverflowError
  | f => Return f
  end.

(** [int(f)]: truncation towards zero. *)
Definition int_of_float (f : float) : outcome Z :=
  match f with
  | S754_zero _ => Return 0
  | S754_infinity _ => Raise OverflowError
  | S754_nan => Raise ValueError
  | S754_finite s m e =>
      let magnitude := if 0 <=? e then Z.pos m * 2 ^ e else Z.pos m `div` 2 ^ (- e) in
      Return (if s then - magnitude else magnitude)
  end.

(** [n * f] for an int [n] and a float [f]. *)
Definition int_mul_float (n : Z) (f : float) : outcome float :=
  let* x := float_of_int n in Return (SFmul prec emax x f).

Module TimeVAEDataModule.
Section Properties.
Context {V : Type}.

(** Instance attributes assigned by [__init__]. *)
Record t : Type := mk {
  window_size : Z;
  batch_size : Z;
  dataframe : DataFrame V;
  test_fraction : float;
  val_fraction : float;
  num_workers : Z
}.

(** The cached properties are functions of attributes that are assigned
    once, so each is modelled by the value its first access computes. *)
Definition df_length (self : t) : Z := df_len (dataframe self).

Definition df_test_length (self : t) : outcome Z :=
  let* product := int_mul_float (df_length self) (test_fraction self) in
  int_of_float product.

Definition df_train_val_length (self : t) : outcome Z :=
  let* test_length := df_test_length self in
  Return (df_length self - test_length).

Definition train_val_dataframe (self : t) : outcome (DataFrame V) :=
  let* stop := df_train_val_length self in
  Return (df_slice (dataframe self) None (Some stop)).

Definition test_dataframe (self : t) : outcome (DataFrame V) :=
  let* start := df_train_val_length self in
  Return (df_slice (dataframe self) (Some start) None).

Definition train_val_dataset (self : t) : outcome (TimeVAEDataset.t V) :=
  let* df := train_val_dataframe self in
  Return (TimeVAEDataset.__init__ df (window_size self)).

Definition test_dataset (self : t) : outcome (TimeVAEDataset.t V) :=
  let* df := test_dataframe self in
  Return (TimeVAEDataset.__init__ df (window_size self)).
End Properties.
Arguments t V : clear implicits.
End TimeVAEDataModule.

(** ** [VAEDecoder] *)

Record VAEDecoderParams : Type := mkVAEDecoderParams {
  hidden_layer_sizes : list Z;
  latent_size : Z;
  data_size : Z
}.

(** The objects that an attribute of the decoder can hold.  Tensors are kept
    by their shape, layers by their sizes. *)
#[local] Set Warnings "-register-all".
Inductive PyObj : Type :=
  | PyInt (n : Z)
  | PyBool (b : bool)
  | Tensor (shape : list Z)
  | Params (p : VAEDecoderParams)
  | Linear (size_in size_out : Z)
  | ReLU
  | Sequential (layers : list PyObj)
  | Method (name : string).

Definition is_module (o : PyObj) : bool :=
  match o with
  | Linear _ _ | ReLU | Sequential _ => true
  | _ => false
  end.

(** An [nn.Module] instance: its [__dict__] and the registry of submodules
    that [nn.Module.__setattr__] and [__getattr__] maintain. *)
Record Module : Type := mkModule {
  __dict__ : gmap string PyObj;
  _modules : gmap string PyObj
}.

(** Names bound in the class [VAEDecoder] and in its base [nn.Module]. *)
Definition class_namespace : gmap string PyObj :=
  list_to_map ((λ n, (n, Method n)) <$>
    [ "__init__"; "forward"; "_linear_block";
      "register_buffer"; "register_parameter"; "add_module"; "register_module";
      "get_submodule"; "get_parameter"; "get_buffer"; "apply"; "cuda"; "cpu";
      "to"; "type"; "float"; "double"; "half"; "train"; "eval";
      "requires_grad_"; "zero_grad"; "state_dict"; "load_state_dict";
      "parameters"; "named_parameters"; "buffers"; "named_buffers";
      "children"; "named_children"; "modules"; "named_modules";
      "extra_repr"; "__call__"; "__setattr__"; "__getattr__" ]).

(** [nn.Module.__init__()] *)
Definition Module_init : Module :=
  {| __dict__ := {[ "training" := PyBool true ]}; _modules := ∅ |}.

(** [self.name = value] *)
Definition setattr (self : Module) (name : string) (value : PyObj) : Module :=
  if is_module value
  then {| __dict__ := delete name (__dict__ self);
          _modules := <[name := value]> (_modules self) |}
  else {| __dict__ := <[name := value]> (__dict__ self);
          _modules := delete name (_modules self) |}.

(** [self.name]: the instance dictionary, then the class, then the
    registries consulted by [nn.Module.__getattr__]. *)
Definition getattr (self : Module) (name : string) : outcome PyObj :=
  match __dict__ self !! name with
  | Some v => Return v
  | None =>
      match class_namespace !! name with
      | Some v => Return v
      | None =>
          match _modules self !! name with
          | Some v => Return v
          | None => Raise (AttributeError name)
          end
      end
  end.

(** [nn.Linear(size_in, size_out)] creates a float32 weight of
    [size_out * size_in] entries.  Sizes that are no int64 are a
    [TypeError]; a negative size is refused when the weight is created, and
    so is a weight whose size in bytes is no int64, both with
    [RuntimeError].  Below that bound, whether the machine has the memory
    for the weight (torch raises [RuntimeError] when it has not) is not
    modelled: the properties below speak of the layers that a constructor
    did return, and of the errors for sizes that are negative. *)
Definition nn_Linear (size_in size_out : Z) : outcome PyObj :=
  if negb (fits_int64 size_in && fits_int64 size_out) then Raise TypeError
  else if (size_in <? 0) || (size_out <? 0) then Raise RuntimeError
  else if int64_max <? 4 * (size_out * size_in) then Raise RuntimeError
  else Return (Linear size_in size_out).

(** Applying a layer to a tensor, on shapes. *)
Fixpoint call_shape (fuel : nat) (layer : PyObj) (shape : list Z) : outcome (list Z) :=
  match layer with
  | Linear size_in size_out =>
      match reverse shape with
      | last :: front =>
          if last =? size_in then Return (reverse (size_out :: front))
          else Raise RuntimeError
      | [] => Raise RuntimeError
      end
  | ReLU => Return shape
  | Sequential layers =>
      match fuel with
      | O => Raise RuntimeError
      | S fuel' =>
          foldl (λ acc l, let* s := acc in call_shape fuel' l s) (Return shape) layers
      end
  | _ => Raise TypeError
  end.

(** Nesting depth of a layer, enough fuel for [call_shape]. *)
Fixpoint depth (layer : PyObj) : nat :=
  match layer with
  | Sequential layers => S (foldr (λ l d, Nat.max (depth l) d) O layers)
  | _ => O
  end.

(** [callee(z)] *)
Definition call (callee z : PyObj) : outcome PyObj :=
  if is_module callee
  then match z with
       | Tensor shape => let* s := call_shape (depth callee) callee shape in Return (Tensor s)
       | _ => Raise TypeError
       end
  else Raise TypeError.

(** [output.view(-1, a, b)] *)
Definition view (output a b : PyObj) : outcome PyObj :=
  match output, a, b with
  | Tensor shape, PyInt a, PyInt b =>
      let numel := foldr Z.mul 1 shape in
      if (0 <? a * b) && (numel `mod` (a * b) =? 0)
      then Return (Tensor [numel `div` (a * b); a; b])
      else Raise RuntimeError
  | Tensor _, _, _ => Raise TypeError
  | _, _, _ => Raise (AttributeError "view")
  end.

Module VAEDecoder.
Definition _linear_block (size_in size_out : Z) : outcome PyObj :=
  let* linear := nn_Linear size_in size_out in
  Return (Sequential [linear; ReLU]).

Definition __init__ (params : VAEDecoderParams) : outcome Module :=
  let self := Module_init in
  let self := setattr self "params" (Params params) in
  let decode_layer_sizes :=
    [latent_size params] ++ hidden_layer_sizes params ++ [data_size params] in
  let* blocks :=
    for_each (λ io : Z * Z, _linear_block io.1 io.2)
             (zip (py_slice decode_layer_sizes None (Some (-1)))
                  (py_slice decode_layer_sizes (Some 1) None)) in
  Return (setattr self "decode" (Sequential blocks)).

Definition forward (self : Module) (z : PyObj) : outcome PyObj :=
  let* decoder := getattr self "decoder" in
  let* output := call decoder z in
  let* seq_len := getattr self "seq_len" in
  let* feat_dim := getattr self "feat_dim" in
  view output seq_len feat_dim.
End VAEDecoder.

(** ** The pendulum signal generator *)

Module Pendulum.
(** [period = 2π√(length/g)] *)
Definition period (g length : R) : R := (2 * PI * sqrt (length / g))%R.

(** [theta(t) = initial_angle * cos(2π t / period) * exp(-beta * t)] *)
Definition theta (g length initial_angle beta t : R) : R :=
  (initial_angle * cos (2 * PI * t / period g length) * exp (- beta * t))%R.

(** The instant of sample [i]: a uniform grid from [t = 0] with
    [num_samples_per_period] samples in each period. *)
Definition instant (g length : R) (num_samples_per_period : Z) (i : nat) : R :=
  (INR i * (period g length / IZR num_samples_per_period))%R.

Definition valid (length : R) (num_periods num_samples_per_period : Z)
    (initial_angle beta : R) : Prop :=
  (0 < length)%R ∧ 0 < num_periods ∧ 0 < num_samples_per_period
  ∧ (0 < initial_angle)%R ∧ (0 < beta)%R.

Definition valid_dec length num_periods num_samples_per_period initial_angle beta :
  {valid length num_periods num_samples_per_period initial_angle beta}
  + {¬ valid length num_periods num_samples_per_period initial_angle beta}.
Proof.
  unfold valid.
  destruct (Rlt_dec 0 length); [|right; tauto].
  destruct (Z_lt_dec 0 num_periods); [|right; tauto].
  destruct (Z_lt_dec 0 num_samples_per_period); [|right; tauto].
  destruct (Rlt_dec 0 initial_angle); [|right; tauto].
  destruct (Rlt_dec 0 beta); [|right; tauto].
  left; tauto.
Defined.

(** Modelled from the spec: the generator class [Pendulum] of
    [ts_dl_utils.datasets.pendulum], which the notebooks import and call
    but whose source is not part of the files at hand.  The spec gives the
    row count, the closed form of [theta], the period and the rejection of
    non-positive parameters; the surface gravity [g] is left open there and
    is an argument here, and the sampling instants are the uniform grid
    [instant]. *)
Definition generate (g length : R) (num_periods num_samples_per_period : Z)
    (initial_angle beta : R) : outcome (list (R * R)) :=
  if valid_dec length num_periods num_samples_per_period initial_angle beta
  then Return (map (λ i : nat,
                      let t := instant g length num_samples_per_period i in
                      (t, theta g length initial_angle beta t))
                   (seq 0 (Z.to_nat (num_periods * num_samples_per_period))))
  else Raise InvalidParameter.
End Pendulum.

(** ** Further pandas, torch and network fragments *)

(** [df[[name, ...]]]: the listed columns, each with every position that
    carries its label; a label that the frame lacks is a [KeyError]. *)
Definition getitem_columns {V} (df : DataFrame V) (names : list label)
    : outcome (DataFrame V) :=
  if forallb (λ c, bool_decide (c ∈ columns df)) names
  then Return {| index_type := index_type df;
                 columns := names ≫= (λ name, filter (λ c, c = name) (columns df));
                 rows := map (λ r, (r.1, names ≫= (λ name,
                                      (filter (λ cv, cv.1 = name)
                                              (zip (columns df) r.2)).*2)))
                             (rows df) |}
  else Raise KeyError.


(** [len(self.test_dataset)], the batch size that [predict_dataloader] asks for. *)
Definition predict_batch_size {V} (self : TimeVAEDataModule.t V) : outcome Z :=
  let* dataset := TimeVAEDataModule.test_dataset self in
  (TimeVAEDataset.len (TimeVAEDataset.mkWorld dataset [])).1.


(** ** Tensors, by shape *)

(** [x.size()] *)
Definition tensor_size (x : PyObj) : outcome (list Z) :=
  match x with
  | Tensor shape => Return shape
  | _ => Raise (AttributeError "size")
  end.

(** [a, b, c = sizes] *)
Definition unpack3 (sizes : list Z) : outcome (Z * Z * Z) :=
  match sizes with
  | [a; b; c] => Return (a, b, c)
  | _ => Raise ValueError
  end.

(** [x.transpose(1, 2)] *)
Definition transpose_1_2 (x : PyObj) : outcome PyObj :=
  match x with
  | Tensor (d0 :: d1 :: d2 :: rest) => Return (Tensor (d0 :: d2 :: d1 :: rest))
  | Tensor _ => Raise IndexError
  | _ => Raise (AttributeError "transpose")
  end.

(** [torch.randn(sizes)] *)
Definition torch_randn (sizes : list Z) : outcome PyObj :=
  if forallb (λ d, 0 <=? d) sizes then Return (Tensor sizes) else Raise RuntimeError.

(** Broadcasting of two shapes, read from their last dimensions. *)
Fixpoint broadcast_reversed (a b : list Z) : outcome (list Z) :=
  match a, b with
  | [], _ => Return b
  | _, [] => Return a
  | x :: a', y :: b' =>
      let* rest := broadcast_reversed a' b' in
      if x =? y then Return (x :: rest)
      else if x =? 1 then Return (y :: rest)
      else if y =? 1 then Return (x :: rest)
      else Raise RuntimeError
  end.

(** [a + b] and [a * b] on tensors. *)
Definition elementwise (a b : PyObj) : outcome PyObj :=
  match a, b with
  | Tensor sa, Tensor sb =>
      let* s := broadcast_reversed (reverse sa) (reverse sb) in
      Return (Tensor (reverse s))
  | _, _ => Raise TypeError
  end.

(** [torch.exp(0.5 * a)]: pointwise, the shape stays. *)
Definition exp_half (a : PyObj) : outcome PyObj :=
  match a with
  | Tensor s => Return (Tensor s)
  | _ => Raise TypeError
  end.

(** [l[-1]] and [l[0]] *)
Definition py_last (l : list Z) : outcome Z :=
  match last l with
  | Some x => Return x
  | None => Raise IndexError
  end.

Definition py_first (l : list Z) : outcome Z :=
  match l with
  | x :: _ => Return x
  | [] => Raise IndexError
  end.

(** ** [VAEEncoder] *)

Module VAEEncoderParams.
Record t : Type := mk {
  hidden_layer_sizes : list Z;
  latent_size : Z;
  data_size : Z
}.
End VAEEncoderParams.

Module VAEEncoder.
(** Instance attributes, as assigned by [__init__]. *)
Record t : Type := mk {
  params : VAEEncoderParams.t;
  encode : PyObj;
  z_mean_layer : PyObj;
  z_log_var_layer : PyObj
}.

Definition _linear_block (size_in size_out : Z) : outcome PyObj :=
  let* linear := nn_Linear size_in size_out in
  Return (Sequential [linear; ReLU]).

Definition __init__ (params : VAEEncoderParams.t) : outcome t :=
  let encode_layer_sizes :=
    [VAEEncoderParams.data_size params] ++ VAEEncoderParams.hidden_layer_sizes params in
  let* blocks :=
    for_each (λ io : Z * Z, _linear_block io.1 io.2)
             (zip (py_slice encode_layer_sizes None (Some (-1)))
                  (py_slice encode_layer_sizes (Some 1) None)) in
  let encode := Sequential blocks in
  let* width := py_last (VAEEncoderParams.hidden_layer_sizes params) in
  let* z_mean_layer := nn_Linear width (VAEEncoderParams.latent_size params) in
  let* width := py_last (VAEEncoderParams.hidden_layer_sizes params) in
  let* z_log_var_layer := nn_Linear width (VAEEncoderParams.latent_size params) in
  Return {| params := params; encode := encode;
            z_mean_layer := z_mean_layer; z_log_var_layer := z_log_var_layer |}.

Definition forward (self : t) (x : PyObj) : outcome (PyObj * PyObj * PyObj) :=
  let* sizes := tensor_size x in
  let* unpacked := unpack3 sizes in
  let batch_size := unpacked.1.1 in
  let* x := transpose_1_2 x in
  let* x := call (encode self) x in
  let* z_mean := call (z_mean_layer self) x in
  let* z_log_var := call (z_log_var_layer self) x in
  let* epsilon := torch_randn [batch_size; VAEEncoderParams.latent_size (params self)] in
  let* scale := exp_half z_log_var in
  let* noise := elementwise scale epsilon in
  let* z := elementwise z_mean noise in
  Return (z_mean, z_log_var, z).
End VAEEncoder.

(** ** [TSFeedForward] *)

Record TSFFNParams : Type := mkTSFFNParams {
  hidden_widths : list Z
}.

Module TSFeedForward.
Record t : Type := mk {
  ffn_params : TSFFNParams;
  history_length : Z;
  horizon : Z;
  regulate_input : PyObj;
  hidden_layers : PyObj;
  regulate_output : PyObj
}.

Definition _linear_block (dim_in dim_out : Z) : outcome PyObj :=
  let* linear := nn_Linear dim_in dim_out in
  Return (Sequential [linear; ReLU]).

Definition __init__ (history_length horizon : Z) (ffn_params : TSFFNParams)
    : outcome t :=
  let* first := py_first (hidden_widths ffn_params) in
  let* regulate_input := nn_Linear history_length first in
  let* blocks :=
    for_each (λ io : Z * Z, _linear_block io.1 io.2)
             (zip (py_slice (hidden_widths ffn_params) None (Some (-1)))
                  (py_slice (hidden_widths ffn_params) (Some 1) None)) in
  let hidden_layers := Sequential blocks in
  let* width := py_last (hidden_widths ffn_params) in
  let* regulate_output := nn_Linear width horizon in
  Return {| ffn_params := ffn_params; history_length := history_length;
            horizon := horizon; regulate_input := regulate_input;
            hidden_layers := hidden_layers; regulate_output := regulate_output |}.

Definition forward (self : t) (x : PyObj) : outcome PyObj :=
  let* x := call (regulate_input self) x in
  let* x := call (hidden_layers self) x in
  call (regulate_output self) x.
End TSFeedForward.

(** * Properties *)

(** ** Slices *)

(** Rows [lo .. hi - 1] of a sequence, for bounds that are already positions. *)
Definition rows_between {A} (l : list A) (lo hi : Z) : list A :=
  take (Z.to_nat (hi - lo)) (drop (Z.to_nat lo) l).

Lemma clamp_bound_inside (n i : Z) : 0 ≤ i ≤ n → clamp_bound n i = i.
Proof. unfold clamp_bound. intros H. destruct (Z.ltb_spec i 0); lia. Qed.

Lemma clamp_bound_range (n i : Z) : 0 ≤ n → 0 ≤ clamp_bound n i ≤ n.
Proof. unfold clamp_bound. intros H. destruct (Z.ltb_spec i 0); lia. Qed.

Lemma py_slice_inside {A} (l : list A) (lo hi : Z) :
  0 ≤ lo ≤ Z.of_nat (length l) → 0 ≤ hi ≤ Z.of_nat (length l) →
  py_slice l (Some lo) (Some hi) = rows_between l lo hi.
Proof.
  intros Hlo Hhi. unfold py_slice, rows_between. simpl.
  by rewrite !clamp_bound_inside.
Qed.

Lemma length_rows_between {A} (l : list A) (lo hi : Z) :
  0 ≤ lo ≤ hi → hi ≤ Z.of_nat (length l) →
  Z.of_nat (length (rows_between l lo hi)) = hi - lo.
Proof.
  intros Hlo Hhi. unfold rows_between. rewrite length_take, length_drop. lia.
Qed.

Lemma lookup_rows_between {A} (l : list A) (lo hi : Z) (k : nat) :
  0 ≤ lo → Z.of_nat k < hi - lo →
  rows_between l lo hi !! k = l !! (Z.to_nat lo + k)%nat.
Proof.
  intros Hlo Hk. unfold rows_between.
  rewrite lookup_take_lt by lia. by rewrite lookup_drop.
Qed.

(** Splitting at any bound, negative or overshooting, loses no row. *)
Lemma py_slice_split {A} (l : list A) (k : Z) :
  py_slice l None (Some k) ++ py_slice l (Some k) None = l.
Proof.
  unfold py_slice. simpl.
  pose proof (clamp_bound_range (Z.of_nat (length l)) k ltac:(lia)) as Hk.
  set (c := clamp_bound _ k) in *.
  rewrite Z.sub_0_r. change (Z.to_nat 0) with O. rewrite drop_0.
  rewrite (take_ge (drop _ _)) by (rewrite length_drop; lia).
  apply take_drop.
Qed.

Lemma length_py_slice_prefix {A} (l : list A) (k : Z) :
  0 ≤ k ≤ Z.of_nat (length l) →
  Z.of_nat (length (py_slice l None (Some k))) = k.
Proof.
  intros Hk. unfold py_slice. simpl. rewrite clamp_bound_inside by done.
  rewrite length_take, length_drop. lia.
Qed.

Lemma length_py_slice_suffix {A} (l : list A) (k : Z) :
  0 ≤ k ≤ Z.of_nat (length l) →
  Z.of_nat (length (py_slice l (Some k) None)) = Z.of_nat (length l) - k.
Proof.
  intros Hk. unfold py_slice. simpl. rewrite clamp_bound_inside by done.
  rewrite length_take, length_drop. lia.
Qed.

Lemma values_df_slice {V} (df : DataFrame V) (start stop : option Z) :
  values (df_slice df start stop) = py_slice (values df) start stop.
Proof.
  unfold values, df_slice, py_slice. simpl.
  by rewrite length_fmap, fmap_take, fmap_drop.
Qed.

(** ** [TimeVAEDataset]: length and indexing *)

Section DatasetFacts.
Context {V : Type}.
Implicit Types (df : DataFrame V) (w : TimeVAEDataset.World V).
Implicit Types (ds : TimeVAEDataset.t V).

(** The world in which a freshly constructed dataset is used. *)
Definition fresh df (window_size : Z) (sink : list string) : TimeVAEDataset.World V :=
  TimeVAEDataset.mkWorld (TimeVAEDataset.__init__ df window_size) sink.

(** The window that [moving_slicing] computes at [idx]. *)
Definition window_at ds (idx : Z) : ndarray V :=
  values (df_slice (TimeVAEDataset.dataframe ds) (Some idx)
                   (Some (TimeVAEDataset.window_size ds + idx))).

Lemma moving_slicing_run w idx :
  TimeVAEDataset.moving_slicing idx w
  = (Return (window_at (TimeVAEDataset.self w) idx), w).
Proof. reflexivity. Qed.

Lemma comprehension_moving_slicing w (indices : list Z) :
  TimeVAEDataset.comprehension TimeVAEDataset.moving_slicing indices w
  = (Return (map (window_at (TimeVAEDataset.self w)) indices), w).
Proof.
  induction indices as [|i indices IH]; [reflexivity|].
  simpl. unfold TimeVAEDataset.bind at 1. rewrite moving_slicing_run.
  unfold TimeVAEDataset.bind at 1. by rewrite IH.
Qed.

(** What [__getitem__] computes, with the state threading resolved. *)
Definition getitem_result ds (idx : key) : outcome (TimeVAEDataset.item V) :=
  match idx with
  | KInt i =>
      if TimeVAEDataset.length ds <=? i then Raise IndexError
      else Return (TimeVAEDataset.Window (window_at ds i))
  | KSlice start stop step =>
      let* low := py_lt start (Some 0) in
      let* out := (if low : bool then Return true
                   else py_ge stop (Some (TimeVAEDataset.length ds))) in
      if out : bool then Raise IndexError
      else
        let* indices := TimeVAEDataset.range_of start stop
                          (match step with Some s => s | None => 1 end) in
        Return (TimeVAEDataset.Windows (map (window_at ds) indices))
  end.

Lemma getitem_run w (idx : key) :
  TimeVAEDataset.__getitem__ idx w
  = (getitem_result (TimeVAEDataset.self w) idx, w).
Proof.
  destruct idx as [i|start stop step]; simpl.
  - unfold TimeVAEDataset.bind, TimeVAEDataset.getattr. simpl.
    by destruct (_ <=? i).
  - unfold TimeVAEDataset.bind, TimeVAEDataset.getattr, TimeVAEDataset.lift,
      TimeVAEDataset.ret, TimeVAEDataset.raise. simpl.
    destruct (py_lt start (Some 0)) as [[|]|e]; simpl; [done| |done].
    destruct (py_ge stop _) as [[|]|e]; simpl; [done| |done].
    destruct (TimeVAEDataset.range_of _ _ _) as [indices|e]; simpl; [|done].
    by rewrite comprehension_moving_slicing.
Qed.

Lemma window_at_inside df (window_size idx : Z) :
  0 ≤ window_size → 0 ≤ idx → idx + window_size ≤ df_len df →
  window_at (TimeVAEDataset.__init__ df window_size) idx
  = rows_between (values df) idx (idx + window_size).
Proof.
  intros Hw Hi Hn. unfold window_at. simpl. rewrite values_df_slice.
  unfold df_len in Hn.
  rewrite py_slice_inside; unfold values; rewrite ?length_fmap; [|lia..].
  by rewrite (Z.add_comm window_size).
Qed.
End DatasetFacts.

(** A one-column frame over a range index, for concrete runs. *)
Definition sample_frame (thetas : list Z) : DataFrame Z :=
  {| index_type := RangeIndex;
     columns := [LStr "theta"];
     rows := imap (λ i x, (LInt (Z.of_nat i), [Some x])) thetas |}.

Section DatasetClaims.
Context {V : Type}.
Implicit Types (df : DataFrame V) (w : TimeVAEDataset.World V).

(** C1 (as amended).  The length that a dataset stores and that [__len__]
    reports is [rows - window_size + 1], with no clamp at zero: it agrees
    with [max(0, rows - window_size + 1)] exactly when
    [window_size <= rows + 1].  Python's [len] returns it when it lies in
    [[0, sys.maxsize]]; it raises [ValueError] when it is negative, that is
    when [window_size > rows + 1], and [OverflowError] when it is beyond
    [sys.maxsize], that is when [window_size < rows + 1 - sys.maxsize].  So
    [len] never returns a negative number, and never a clamped one. *)
Theorem dataset_length_unclamped df (window_size : Z) (sink : list string) :
  let w := fresh df window_size sink in
  let n := df_len df - window_size + 1 in
  TimeVAEDataset.__len__ w = (Return n, w)
  ∧ (n = Z.max 0 n ↔ window_size ≤ df_len df + 1)
  ∧ TimeVAEDataset.len w
    = (if df_len df + 1 <? window_size then Raise ValueError
       else if window_size <? df_len df + 1 - sys_maxsize then Raise OverflowError
       else Return n, w)
  ∧ (∀ k, (TimeVAEDataset.len w).1 = Return k → k = n ∧ 0 ≤ k ≤ sys_maxsize).
Proof.
  intros w n. split; [reflexivity|]. split; [lia|].
  assert (TimeVAEDataset.len w = (py_len n, w)) as -> by reflexivity.
  unfold py_len.
  destruct (Z.ltb_spec n 0), (Z.ltb_spec sys_maxsize n),
    (Z.ltb_spec (df_len df + 1) window_size),
    (Z.ltb_spec window_size (df_len df + 1 - sys_maxsize));
    try lia; (split; [reflexivity|]); simpl; intros k Hk;
    first [discriminate | injection Hk as <-; lia].
Qed.

(** An int index is refused exactly when it reaches the stored length;
    there is no check from below. *)
Lemma getitem_int_raises_iff w (idx : Z) :
  (TimeVAEDataset.__getitem__ (KInt idx) w).1 = Raise IndexError
  ↔ TimeVAEDataset.length (TimeVAEDataset.self w) ≤ idx.
Proof.
  rewrite getitem_run. simpl.
  destruct (Z.leb_spec (TimeVAEDataset.length (TimeVAEDataset.self w)) idx);
    split; (done || lia).
Qed.

(** C3.  For a window size that is a length
    ([0 <= window_size <= rows]) and an index in [[0, length)], indexing
    succeeds, leaves the dataset as it was, and returns rows
    [index .. index + window_size - 1] of the table, [window_size] rows in
    all. *)
Theorem getitem_window df (window_size idx : Z) (sink : list string) :
  0 ≤ window_size ≤ df_len df →
  0 ≤ idx < df_len df - window_size + 1 →
  let w := fresh df window_size sink in
  let window := rows_between (values df) idx (idx + window_size) in
  TimeVAEDataset.__getitem__ (KInt idx) w = (Return (TimeVAEDataset.Window window), w)
  ∧ Z.of_nat (length window) = window_size.
Proof.
  intros Hw Hi w window. split.
  - rewrite getitem_run. simpl.
    destruct (Z.leb_spec (df_len df - window_size + 1) idx); [lia|].
    f_equal. f_equal. f_equal.
    apply window_at_inside; lia.
  - unfold window. rewrite length_rows_between; [lia..|].
    unfold values, df_len in *. rewrite length_fmap. lia.
Qed.

(** C4 (as amended).  A slice key with int endpoints is refused with
    [IndexError] exactly when [start < 0] or [stop >= length]: the lower
    check reads [start] alone and the upper check [stop] alone.  Otherwise
    a zero step raises [ValueError], and any other step (1 when absent)
    returns the windows computed at [range(start, stop, step)], in order.
    The dataset is left as it was in each case. *)
Theorem getitem_slice df (window_size start stop : Z) (step : option Z)
    (sink : list string) :
  let w := fresh df window_size sink in
  let len := df_len df - window_size + 1 in
  let result := TimeVAEDataset.__getitem__ (KSlice (Some start) (Some stop) step) w in
  result.2 = w
  ∧ (result.1 = Raise IndexError ↔ start < 0 ∨ len ≤ stop)
  ∧ (¬ (start < 0 ∨ len ≤ stop) →
     result.1 = let* indices := py_range start stop (default 1 step) in
                Return (TimeVAEDataset.Windows
                          (map (window_at (TimeVAEDataset.self w)) indices))).
Proof.
  intros w len result. unfold result. rewrite getitem_run. simpl.
  split; [reflexivity|].
  fold len.
  assert (default 1 step = match step with Some s => s | None => 1 end) as ->
    by by destruct step.
  destruct (Z.ltb_spec start 0); simpl.
  { split; [split; [lia|done]|lia]. }
  destruct (Z.leb_spec len stop); simpl.
  { split; [split; [lia|done]|lia]. }
  split; [|done].
  split; [|lia].
  unfold py_range. destruct (_ =? 0); simpl; discriminate.
Qed.

(** C5.  No method of the dataset changes the instance or the table it
    refers to, so indexing twice with the same key returns the same value
    twice; validation only appends to the log. *)
Theorem getitem_repeatable w (idx : key) :
  let first := TimeVAEDataset.__getitem__ idx w in
  let second := TimeVAEDataset.__getitem__ idx first.2 in
  second.1 = first.1
  ∧ first.2 = w ∧ second.2 = w
  ∧ (∀ i, (TimeVAEDataset.moving_slicing i w).2 = w)
  ∧ (TimeVAEDataset.__len__ w).2 = w
  ∧ (TimeVAEDataset.len w).2 = w
  ∧ TimeVAEDataset.self (TimeVAEDataset._validate_dataframe w).2
    = TimeVAEDataset.self w.
Proof.
  intros first second. unfold second, first. rewrite !getitem_run. simpl.
  split; [reflexivity|]. split; [reflexivity|]. split; [reflexivity|].
  split; [intros i; reflexivity|]. split; [reflexivity|]. split.
  - unfold TimeVAEDataset.len, TimeVAEDataset.bind, TimeVAEDataset.lift. simpl.
    by destruct (py_len (TimeVAEDataset.length (TimeVAEDataset.self w))).
  - unfold TimeVAEDataset._validate_dataframe, TimeVAEDataset.bind,
      TimeVAEDataset.getattr, TimeVAEDataset.raise, TimeVAEDataset.ret,
      TimeVAEDataset.logger_warning. simpl.
    destruct (bool_decide _); simpl; [|done].
    destruct (isnull_any _); simpl; by destruct (index_equals _ _).
Qed.
End DatasetClaims.

(** ** [TimeVAEDataset]: validation *)

Definition label_le (a b : label) : Prop := label_leb a b = true.

Lemma label_leb_total (a b : label) : label_leb a b = true ∨ label_leb b a = true.
Proof.
  destruct a as [x|s], b as [y|t]; simpl; auto.
  - destruct (Z.leb_spec x y), (Z.leb_spec y x); auto; lia.
  - apply String.leb_total.
Qed.

Lemma sort_insert_sorted (x : label) (l : list label) :
  Sorted label_le l → Sorted label_le (sort_insert x l).
Proof.
  induction 1 as [|y l Hl IH Hy]; simpl.
  - by repeat constructor.
  - destruct (label_leb x y) eqn:Hxy.
    + by repeat constructor.
    + constructor; [done|].
      assert (label_le y x) as Hyx by (destruct (label_leb_total x y); congruence).
      destruct Hy as [|z l' Hz]; simpl; [by constructor|].
      destruct (label_leb x z); by constructor.
Qed.

Lemma sort_values_sorted (l : list label) : Sorted label_le (sort_values l).
Proof.
  induction l as [|x l IH]; simpl; [constructor|]. by apply sort_insert_sorted.
Qed.

Lemma sort_values_fixed (l : list label) : Sorted label_le l → sort_values l = l.
Proof.
  induction 1 as [|x l Hl IH Hx]; [done|].
  simpl. rewrite IH. destruct Hx as [|y l' Hy]; simpl; [done|].
  unfold label_le in Hy. by rewrite Hy.
Qed.

(** The test behind the second warning: the index equals its sorted copy
    exactly when it is in non-decreasing order. *)
Lemma has_index_sorted_iff (l : list label) :
  index_equals l (sort_values l) = true ↔ Sorted label_le l.
Proof.
  unfold index_equals. rewrite bool_decide_eq_true. split.
  - intros ->. apply sort_values_sorted.
  - intros H. by rewrite sort_values_fixed.
Qed.

(** The test behind the first warning: some cell of the table is null. *)
Lemma has_na_iff {V} (df : DataFrame V) :
  isnull_any df = true ↔ ∃ row, row ∈ values df ∧ None ∈ row.
Proof.
  unfold isnull_any. rewrite existsb_exists. split.
  - intros (row & Hrow & Hc). exists row. split; [by apply list_elem_of_In|].
    apply existsb_exists in Hc as (c & Hc & Hn).
    apply bool_decide_eq_true in Hn. subst. by apply list_elem_of_In.
  - intros (row & Hrow & Hc). exists row. split; [by apply list_elem_of_In|].
    apply existsb_exists. exists None. split; [by apply list_elem_of_In|].
    by apply bool_decide_eq_true.
Qed.

Section ValidationClaims.
Context {V : Type}.
Implicit Types (w : TimeVAEDataset.World V).

(** C6.  Validation raises [TypeError] if and only if the index of the
    table is not a [DatetimeIndex], and then logs nothing.  On a
    [DatetimeIndex] it returns normally whatever the table holds: it logs
    ["Dataframe has null"] when some cell of the table is null and
    ["Dataframe index is not sorted"] when the index is not in
    non-decreasing order, in that order, and nothing else.  The dataset and
    its table are the same afterwards in every case. *)
Theorem validate_dataframe_lenient w :
  let df := TimeVAEDataset.dataframe (TimeVAEDataset.self w) in
  let result := TimeVAEDataset._validate_dataframe w in
  let has_null := ∃ row, row ∈ values df ∧ None ∈ row in
  let unsorted := ¬ Sorted label_le (index df) in
  (result.1 = Raise TypeError ↔ index_type df ≠ DatetimeIndex)
  ∧ (result.1 = Return tt ↔ index_type df = DatetimeIndex)
  ∧ TimeVAEDataset.self result.2 = TimeVAEDataset.self w
  ∧ (index_type df ≠ DatetimeIndex →
     TimeVAEDataset.sink result.2 = TimeVAEDataset.sink w)
  ∧ (index_type df = DatetimeIndex →
     ∃ null_warning order_warning,
       TimeVAEDataset.sink result.2
       = TimeVAEDataset.sink w ++ null_warning ++ order_warning
       ∧ (has_null → null_warning = ["Dataframe has null"])
       ∧ (¬ has_null → null_warning = [])
       ∧ (unsorted → order_warning = ["Dataframe index is not sorted"])
       ∧ (¬ unsorted → order_warning = [])).
Proof.
  intros df result has_null unsorted. unfold result.
  unfold TimeVAEDataset._validate_dataframe, TimeVAEDataset.bind,
    TimeVAEDataset.getattr, TimeVAEDataset.raise, TimeVAEDataset.ret,
    TimeVAEDataset.logger_warning. simpl. fold df.
  pose proof (has_na_iff df) as Hna. fold has_null in Hna.
  pose proof (has_index_sorted_iff (index df)) as Hsorted.
  destruct (bool_decide_reflect (index_type df = DatetimeIndex)) as [Hd|Hd]; simpl.
  - destruct (isnull_any df) eqn:Enull; simpl;
      destruct (index_equals (index df) (sort_values (index df))) eqn:Esorted; simpl;
      (split; [split; [discriminate|done]|]); (split; [done|]); (split; [done|]);
      (split; [done|]); intros _.
    + exists ["Dataframe has null"], []. split; [done|].
      split; [done|]. split; [intros Hn; destruct Hn; by apply Hna|].
      split; [|done]. intros Hu. destruct Hu. by apply Hsorted.
    + exists ["Dataframe has null"], ["Dataframe index is not sorted"].
      split; [by rewrite <-app_assoc|].
      split; [done|]. split; [intros Hn; destruct Hn; by apply Hna|].
      split; [done|]. intros Hs. destruct Hs. intros Hs.
      apply Hsorted in Hs. congruence.
    + exists [], []. split; [by rewrite app_nil_r|].
      split; [intros Hn; apply Hna in Hn; congruence|]. split; [done|].
      split; [|done]. intros Hu. destruct Hu. by apply Hsorted.
    + exists [], ["Dataframe index is not sorted"]. split; [done|].
      split; [intros Hn; apply Hna in Hn; congruence|]. split; [done|].
      split; [done|]. intros Hs. destruct Hs. intros Hs.
      apply Hsorted in Hs. congruence.
  - split; [done|]. split; [split; [discriminate|done]|]. done.
Qed.
End ValidationClaims.

(** ** [TimeVAEDataModule]: the train/test split *)

Section SplitClaims.
Context {V : Type}.
Implicit Types (self : TimeVAEDataModule.t V).

(** C9 (as amended).  Whenever [int(n * test_fraction)] is computed, say
    as [k], both frames exist, keep the index class and the columns of the
    table, and partition its rows in order: their lengths sum to [n] and
    the rows of the first followed by the rows of the second are the rows
    of the table.  When moreover [0 <= k <= n], the first frame is the
    first [n - k] rows and the second the remaining [k] rows. *)
Theorem split_is_ordered_partition self (k : Z) :
  TimeVAEDataModule.df_test_length self = Return k →
  let df := TimeVAEDataModule.dataframe self in
  let n := df_len df in
  ∃ train test,
    TimeVAEDataModule.train_val_dataframe self = Return train
    ∧ TimeVAEDataModule.test_dataframe self = Return test
    ∧ index_type train = index_type df ∧ columns train = columns df
    ∧ index_type test = index_type df ∧ columns test = columns df
    ∧ rows train ++ rows test = rows df
    ∧ df_len train + df_len test = n
    ∧ (0 ≤ k ≤ n →
       df_len train = n - k ∧ df_len test = k
       ∧ rows train = take (Z.to_nat (n - k)) (rows df)
       ∧ rows test = drop (Z.to_nat (n - k)) (rows df)).
Proof.
  intros Hk df n.
  unfold TimeVAEDataModule.train_val_dataframe, TimeVAEDataModule.test_dataframe,
    TimeVAEDataModule.df_train_val_length. rewrite Hk. simpl.
  fold df. unfold TimeVAEDataModule.df_length. fold df. fold n.
  eexists _, _. split; [reflexivity|]. split; [reflexivity|]. simpl.
  do 4 (split; [reflexivity|]).
  assert (py_slice (rows df) None (Some (n - k)) ++ py_slice (rows df) (Some (n - k)) None
          = rows df) as Hsplit by apply py_slice_split.
  split; [exact Hsplit|]. split.
  - unfold df_len. simpl. rewrite <-Nat2Z.inj_add, <-length_app, Hsplit. done.
  - intros Hrange. unfold df_len in *. simpl.
    rewrite length_py_slice_prefix, length_py_slice_suffix by (fold n; lia).
    fold n. split; [done|]. split; [lia|].
    unfold py_slice. simpl. rewrite !clamp_bound_inside by (fold n; lia).
    fold n. rewrite Z.sub_0_r. change (Z.to_nat 0) with O. rewrite drop_0.
    split; [done|].
    apply take_ge. rewrite length_drop. lia.
Qed.
End SplitClaims.

(** ** [VAEDecoder] *)

(** The attributes that the constructor leaves on the instance. *)
Lemma VAEDecoder_init_attributes (params : VAEDecoderParams) (self : Module) :
  VAEDecoder.__init__ params = Return self →
  ∃ blocks,
    __dict__ self = <["params" := Params params]> {["training" := PyBool true]}
    ∧ _modules self = {["decode" := Sequential blocks]}.
Proof.
  unfold VAEDecoder.__init__. intros H.
  destruct (for_each _ _) as [blocks|e]; simpl in H; [|discriminate].
  injection H as <-. exists blocks. unfold setattr. simpl. split.
  - apply map_eq. intros name.
    destruct (decide (name = "decode")) as [->|Hne].
    + rewrite lookup_delete_eq. by vm_compute.
    + by rewrite lookup_delete_ne.
  - apply map_eq. intros name. by rewrite delete_empty, insert_empty.
Qed.

(** C8.  On every decoder that its constructor returns, [forward] raises an
    attribute error for [decoder] whatever the argument: the constructor
    binds [params] and [decode] only, so none of [decoder], [seq_len] and
    [feat_dim] can be read from the instance. *)
Theorem VAEDecoder_forward_raises (params : VAEDecoderParams) (self : Module)
    (z : PyObj) :
  VAEDecoder.__init__ params = Return self →
  VAEDecoder.forward self z = Raise (AttributeError "decoder")
  ∧ getattr self "decoder" = Raise (AttributeError "decoder")
  ∧ getattr self "seq_len" = Raise (AttributeError "seq_len")
  ∧ getattr self "feat_dim" = Raise (AttributeError "feat_dim")
  ∧ getattr self "params" = Return (Params params)
  ∧ ∃ blocks, getattr self "decode" = Return (Sequential blocks).
Proof.
  intros Hinit.
  destruct (VAEDecoder_init_attributes params self Hinit) as (blocks & Hd & Hm).
  assert (∀ name, name ≠ "params" → name ≠ "training" → name ≠ "decode" →
            class_namespace !! name = None →
            getattr self name = Raise (AttributeError name)) as Hmiss.
  { intros name H1 H2 H3 Hc. unfold getattr. rewrite Hd, Hm, Hc.
    rewrite lookup_insert_ne, lookup_singleton_ne by done.
    by rewrite lookup_singleton_ne. }
  assert (getattr self "decoder" = Raise (AttributeError "decoder")) as Hdecoder
    by (apply Hmiss; done).
  split; [unfold VAEDecoder.forward; by rewrite Hdecoder|].
  split; [done|].
  split; [by apply Hmiss|]. split; [by apply Hmiss|].
  split.
  - unfold getattr. rewrite Hd. by rewrite lookup_insert_eq.
  - exists blocks. unfold getattr. rewrite Hd, Hm.
    rewrite lookup_insert_ne, lookup_singleton_ne by done.
    assert (class_namespace !! "decode" = None) as -> by done.
    by rewrite lookup_singleton_eq.
Qed.

(** ** The pendulum signal generator *)

Lemma period_pos (g L : R) : (0 < g)%R → (0 < L)%R → (0 < Pendulum.period g L)%R.
Proof.
  intros Hg HL. unfold Pendulum.period.
  apply Rmult_lt_0_compat.
  - pose proof PI_RGT_0. lra.
  - apply sqrt_lt_R0. by apply Rdiv_lt_0_compat.
Qed.

Lemma theta_at_0 (g L a b : R) : Pendulum.theta g L a b 0 = a.
Proof.
  unfold Pendulum.theta.
  replace (2 * PI * 0 / Pendulum.period g L)%R with 0%R by (unfold Rdiv; ring).
  replace (- b * 0)%R with 0%R by ring.
  rewrite cos_0, exp_0. ring.
Qed.

Lemma instant_increasing (g L : R) (ns : Z) (i j : nat) :
  (0 < g)%R → (0 < L)%R → 0 < ns → (i < j)%nat →
  (Pendulum.instant g L ns i < Pendulum.instant g L ns j)%R.
Proof.
  intros Hg HL Hns Hij. unfold Pendulum.instant.
  apply Rmult_lt_compat_r.
  - apply Rdiv_lt_0_compat; [by apply period_pos|]. by apply (IZR_lt 0).
  - by apply lt_INR.
Qed.

(** C7.  With positive parameters the generator returns a table of exactly
    [num_periods * num_samples_per_period] rows [(t, theta)], whose [t] grow
    strictly, whose [theta] follow the closed form of the damped oscillator,
    and whose first row is [t = 0] with [theta = initial_angle]; being a
    function, it returns the same table for the same arguments.  With a
    non-positive parameter it fails with [InvalidParameter]. *)
Theorem pendulum_generate (g L : R) (num_periods num_samples_per_period : Z)
    (initial_angle beta : R) :
  (0 < g)%R →
  let result := Pendulum.generate g L num_periods num_samples_per_period
                  initial_angle beta in
  (Pendulum.valid L num_periods num_samples_per_period initial_angle beta →
   ∃ table,
     result = Return table
     ∧ Z.of_nat (length table) = num_periods * num_samples_per_period
     ∧ (∀ (i j : nat) ri rj, table !! i = Some ri → table !! j = Some rj →
          (i < j)%nat → (ri.1 < rj.1)%R)
     ∧ (∀ (i : nat) r, table !! i = Some r →
          r.2 = (initial_angle
                 * cos (2 * PI * r.1 / (2 * PI * sqrt (L / g)))
                 * exp (- beta * r.1))%R)
     ∧ table !! O = Some (0%R, initial_angle))
  ∧ (¬ Pendulum.valid L num_periods num_samples_per_period initial_angle beta →
     result = Raise InvalidParameter).
Proof.
  intros Hg result. unfold result, Pendulum.generate.
  destruct (Pendulum.valid_dec _ _ _ _ _) as [Hv|Hv]; split; try done.
  intros _. destruct Hv as (HL & Hnp & Hns & Ha & Hb).
  eexists. split; [reflexivity|].
  assert (0 < num_periods * num_samples_per_period) as Hn by lia.
  split; [rewrite length_map, length_seq; lia|].
  split; [|split].
  - intros i j ri rj Hi Hj Hij.
    rewrite list_lookup_fmap in Hi, Hj.
    destruct (seq _ _ !! i) as [i'|] eqn:Ei; [|done].
    destruct (seq _ _ !! j) as [j'|] eqn:Ej; [|done].
    apply lookup_seq in Ei as [-> _]. apply lookup_seq in Ej as [-> _].
    simpl in Hi, Hj. injection Hi as <-. injection Hj as <-. simpl.
    by apply instant_increasing.
  - intros i r Hi. rewrite list_lookup_fmap in Hi.
    destruct (seq _ _ !! i) as [i'|]; [|done].
    simpl in Hi. by injection Hi as <-.
  - rewrite list_lookup_fmap.
    destruct (Z.to_nat (num_periods * num_samples_per_period)) as [|n] eqn:En; [lia|].
    simpl. f_equal.
    assert (Pendulum.instant g L num_samples_per_period 0 = 0%R) as ->
      by (unfold Pendulum.instant; simpl; ring).
    by rewrite theta_at_0.
Qed.

(** ** [time_delay_embed] *)

Lemma for_each_map {A B} (f : A → outcome B) (g : A → B) (l : list A) :
  (∀ a, a ∈ l → f a = Return (g a)) → for_each f l = Return (map g l).
Proof.
  induction l as [|a l IH]; intros H; [done|].
  simpl. rewrite H by left. simpl. rewrite IH; [done|].
  intros b Hb. apply H. by right.
Qed.

(** One column of a 2-d array, by position. *)
Definition series_of {V} (j : nat) (a : ndarray V) : list (cell V) :=
  map (λ r, default None (r !! j)) a.

(** The frames of the claim: the column [t] and one other column [value],
    found at position [j]. *)
Definition layout (cols : list label) (value : label) (j : nat) : Prop :=
  value ≠ LStr "t"
  ∧ ((j = 0%nat ∧ cols = [value; LStr "t"]) ∨ (j = 1%nat ∧ cols = [LStr "t"; value])).

(** The body of the loop of [time_delay_embed]. *)
Definition embed_window {V} (i : DataFrame V) : outcome (DataFrame V) :=
  let* t := column_attr i "t" in
  let* i_t := iloc0 t in
  let* dropped := drop_column (reset_index i) "t" in
  Return (reset_index (transpose dropped)).

Lemma select_cells_layout {V} (cols : list label) (value : label) (j : nat)
    (r : list (cell V)) :
  layout cols value j → length r = 2%nat →
  select_cells (λ c, negb (bool_decide (c = LStr "t"))) cols r = [default None (r !! j)].
Proof.
  intros [Hv Hl] Hr.
  destruct r as [|c0 [|c1 [|]]]; try done.
  unfold select_cells.
  destruct Hl as [[-> ->]|[-> ->]]; simpl;
    rewrite !filter_cons, filter_nil; simpl;
    rewrite (bool_decide_eq_false_2 _ Hv); done.
Qed.

Lemma series_of_reset {V} (j : nat) (rs : list (label * list (cell V))) :
  map (λ r : label * list (cell V), default None (r.2 !! j))
      (imap (λ i r, (LInt (Z.of_nat i), r.2)) rs)
  = series_of j (rs.*2).
Proof.
  unfold series_of. rewrite fmap_imap, <-list_fmap_compose.
  exact (imap_const (λ r : label * list (cell V), default None (r.2 !! j)) rs).
Qed.

Lemma embed_window_frame {V} (f : DataFrame V) (value : label) (j : nat) :
  layout (columns f) value j →
  Forall (λ r, length r.2 = 2%nat) (rows f) →
  rows f ≠ [] →
  embed_window f
  = Return {| index_type := RangeIndex;
              columns := (λ i : nat, LInt (Z.of_nat i)) <$> seq 0 (length (rows f));
              rows := [(LInt 0, series_of j (values f))] |}.
Proof.
  intros Hl Hwf Hne. unfold embed_window.
  assert (∃ s, column_attr f "t" = Return s ∧ length s = length (rows f)) as (s & -> & Hs).
  { unfold column_attr. destruct Hl as [Hv [[-> ->]|[-> ->]]]; simpl.
    - rewrite decide_False by done. simpl. eexists. split; [done|]. by rewrite length_map.
    - eexists. split; [done|]. by rewrite length_map. }
  simpl.
  destruct s as [|c s]; [destruct (rows f); done|]. simpl.
  unfold drop_column. simpl.
  rewrite bool_decide_eq_true_2
    by (destruct Hl as [Hv [[-> ->]|[-> ->]]]; set_solver).
  simpl. f_equal. unfold reset_index, transpose. simpl. f_equal.
  - unfold index. simpl. rewrite <-list_fmap_compose, fmap_imap.
    apply (imap_seq_0 (rows f) (λ i : nat, LInt (Z.of_nat i))).
  - assert (filter (λ c0 : label, negb (bool_decide (c0 = LStr "t")) = true) (columns f)
            = [value]) as ->.
    { destruct Hl as [Hv [[-> ->]|[-> ->]]];
        rewrite !filter_cons, filter_nil; simpl;
        rewrite (bool_decide_eq_false_2 _ Hv); done. }
    simpl. f_equal. f_equal.
    transitivity ((λ r : label * list (cell V), default None (r.2 !! j)) <$> rows f).
    + rewrite <-list_fmap_compose, fmap_imap.
      etransitivity;
        [exact (imap_const
                  (λ r : label * list (cell V),
                     default None
                       (select_cells (λ c0 : label, negb (bool_decide (c0 = LStr "t")))
                          (columns f) r.2 !! 0%nat)) (rows f))|].
      apply Forall_fmap_ext_1. eapply Forall_impl; [exact Hwf|].
      intros r Hr. simpl. by rewrite (select_cells_layout _ value j).
    + unfold series_of, values. by rewrite <-list_fmap_compose.
Qed.

Lemma rolling_windows {V} (df : DataFrame V) (w : Z) :
  0 ≤ w ≤ Z.max int64_max (df_len df) →
  rolling df w
  = Return (map (λ i : nat,
                   df_slice df (Some (Z.max 0 (Z.of_nat i + 1 - w)))
                               (Some (Z.of_nat i + 1)))
                (seq 0 (length (rows df)))).
Proof.
  intros Hw. unfold rolling. destruct (Z.ltb_spec w 0); [lia|].
  destruct (Z.ltb_spec (Z.max int64_max (df_len df)) w); [lia|].
  f_equal. unfold df_len. rewrite Nat2Z.id.
  apply Forall_fmap_ext_1, Forall_forall. intros i Hi.
  apply elem_of_seq in Hi. f_equal; f_equal; lia.
Qed.

Lemma fmap_rows_between {A B} (f : A → B) (l : list A) (lo hi : Z) :
  f <$> rows_between l lo hi = rows_between (f <$> l) lo hi.
Proof. unfold rows_between. by rewrite fmap_take, fmap_drop. Qed.

Lemma series_of_rows_between {V} (j : nat) (a : ndarray V) (lo hi : Z) :
  series_of j (rows_between a lo hi) = rows_between (series_of j a) lo hi.
Proof. unfold series_of, rows_between. by rewrite <-fmap_drop, <-fmap_take. Qed.

Lemma concat_same_columns {V} (f : DataFrame V) (others : list (DataFrame V))
    (cols : list label) :
  Forall (λ g, columns g = cols) (f :: others) →
  concat (f :: others)
  = Return {| index_type := concat_index_type (f :: others);
              columns := cols;
              rows := mjoin (map rows (f :: others)) |}.
Proof.
  intros H. apply Forall_cons in H as [Hf Ho]. unfold concat.
  assert (forallb (λ g, bool_decide (columns g = columns f)) others = true) as ->.
  { apply forallb_forall. intros g Hg. apply bool_decide_eq_true.
    rewrite Forall_forall in Ho. rewrite Hf. apply Ho. by apply list_elem_of_In. }
  by rewrite Hf.
Qed.

Lemma mjoin_singletons {A B} (h : A → B) (l : list A) :
  mjoin (map (λ a, [h a]) l) = map h l.
Proof. induction l as [|a l IH]; [done|]. simpl. by rewrite IH. Qed.

Lemma concat_fmap_same_columns {V A} (F : A → DataFrame V) (l : list A)
    (cols : list label) :
  l ≠ [] → (∀ a, columns (F a) = cols) →
  ∃ e, concat (F <$> l) = Return e
       ∧ columns e = cols
       ∧ rows e = mjoin (map rows (F <$> l)).
Proof.
  intros Hl Hc. destruct l as [|a l]; [done|].
  rewrite fmap_cons, (concat_same_columns _ _ cols).
  - eexists. split; [reflexivity|]. done.
  - rewrite <-fmap_cons. apply Forall_fmap, Forall_forall. intros x _. apply Hc.
Qed.

Section EmbeddingClaims.
Context {V : Type}.

(** C10.  On a frame made of the column [t] and one value column, and for
    [1 <= w <= rows], the embedding succeeds with [rows - w + 1] rows and
    [w] columns, and its row [i] holds the value column's entries of the
    input rows [i .. i + w - 1] in order: the [w - 1] partial windows that
    the rolling iteration yields first are left out. *)
Theorem time_delay_embed_rows (df : DataFrame V) (value : label) (j : nat) (w : Z) :
  layout (columns df) value j →
  Forall (λ r, length r.2 = 2%nat) (rows df) →
  1 ≤ w ≤ df_len df →
  let series := series_of j (values df) in
  ∃ embedded,
    time_delay_embed df w = Return embedded
    ∧ df_len embedded = df_len df - w + 1
    ∧ Z.of_nat (length (columns embedded)) = w
    ∧ values embedded
      = (λ i : nat, rows_between series (Z.of_nat i) (Z.of_nat i + w))
        <$> seq 0 (Z.to_nat (df_len df - w + 1))
    ∧ Forall (λ r, Z.of_nat (length r) = w) (values embedded).
Proof.
  intros Hl Hwf Hw series. unfold time_delay_embed.
  rewrite rolling_windows by lia. simpl.
  set (N := length (rows df)) in *. unfold df_len in *. fold N in Hw |- *.
  set (win := λ i : nat, df_slice df (Some (Z.max 0 (Z.of_nat i + 1 - w)))
                                      (Some (Z.of_nat i + 1))).
  set (g := λ f : DataFrame V,
              {| index_type := RangeIndex;
                 columns := (λ i : nat, LInt (Z.of_nat i)) <$> seq 0 (length (rows f));
                 rows := [(LInt 0, series_of j (values f))] |}).
  assert (∀ i : nat, (i < N)%nat →
            rows (win i) = rows_between (rows df) (Z.max 0 (Z.of_nat i + 1 - w))
                                        (Z.of_nat i + 1)) as Hwin.
  { intros i Hi. unfold win. simpl. apply py_slice_inside; fold N; lia. }
  rewrite (for_each_map _ g).
  2:{ intros a Ha. apply list_elem_of_fmap in Ha as (i & -> & Hi).
      apply elem_of_seq in Hi.
      apply (embed_window_frame (win i) value j); [done| |].
      - rewrite Hwin by lia. unfold rows_between.
        by apply Forall_take, Forall_drop.
      - rewrite Hwin by lia. intros Hnil.
        apply (f_equal length) in Hnil. unfold rows_between in Hnil.
        rewrite length_take, length_drop in Hnil. fold N in Hnil. simpl in Hnil. lia. }
  simpl.
  set (a := Z.to_nat (w - 1)).
  set (M := Z.to_nat (Z.of_nat N - w + 1)).
  set (cols := (λ i : nat, LInt (Z.of_nat i)) <$> seq 0 (Z.to_nat w)).
  set (F := λ k : nat,
              {| index_type := RangeIndex;
                 columns := cols;
                 rows := [(LInt 0, rows_between series (Z.of_nat k) (Z.of_nat k + w))] |}).
  assert (py_slice (map g (map win (seq 0 N))) (Some (w - 1)) None = F <$> seq 0 M)
    as ->.
  { unfold py_slice. simpl. rewrite !length_map, length_seq.
    rewrite clamp_bound_inside by lia.
    rewrite take_ge by (rewrite length_drop, !length_map, length_seq; lia).
    fold a. rewrite <-!fmap_drop, drop_seq. simpl.
    replace (N - a)%nat with M by lia.
    replace (seq a M) with (Nat.add a <$> seq 0 M)
      by (rewrite fmap_add_seq; f_equal; lia).
    rewrite <-!list_fmap_compose.
    apply Forall_fmap_ext_1, Forall_forall. intros k Hk.
    apply elem_of_seq in Hk. simpl.
    unfold g, F. f_equal.
    - unfold cols. do 2 f_equal. rewrite Hwin by lia.
      apply Nat2Z.inj. rewrite length_rows_between; fold N; lia.
    - do 2 f_equal. unfold values. rewrite Hwin by lia.
      unfold series, values.
      rewrite fmap_rows_between, series_of_rows_between.
      f_equal; lia. }
  destruct (concat_fmap_same_columns F (seq 0 M) cols) as (e & -> & Hc & Hr).
  { intros Hnil. apply (f_equal length) in Hnil. rewrite length_seq in Hnil.
    simpl in Hnil. lia. }
  { done. }
  exists e. split; [done|].
  assert (rows e = (λ k : nat, (LInt 0, rows_between series (Z.of_nat k) (Z.of_nat k + w)))
                   <$> seq 0 M) as Hrows.
  { rewrite Hr. rewrite <-list_fmap_compose.
    apply (mjoin_singletons
             (λ k : nat, (LInt 0, rows_between series (Z.of_nat k) (Z.of_nat k + w)))). }
  split; [rewrite Hrows, length_fmap, length_seq; lia|].
  split; [rewrite Hc; unfold cols; rewrite length_fmap, length_seq; lia|].
  assert (values e
          = (λ i : nat, rows_between series (Z.of_nat i) (Z.of_nat i + w)) <$> seq 0 M)
    as Hvalues by (unfold values; rewrite Hrows; by rewrite <-list_fmap_compose).
  split; [done|].
  rewrite Hvalues. apply Forall_fmap, Forall_forall. intros k Hk.
  apply elem_of_seq in Hk. simpl.
  rewrite length_rows_between; [lia..|].
  unfold series, series_of, values. rewrite length_map, length_fmap. fold N. lia.
Qed.
End EmbeddingClaims.

(** * Concrete runs *)

(** A table of [t] and [theta], as the notebook builds it. *)
Definition pendulum_frame : DataFrame Z :=
  {| index_type := RangeIndex;
     columns := [LStr "t"; LStr "theta"];
     rows := [ (LInt 0, [Some 0; Some 10]); (LInt 1, [Some 1; Some 11]);
               (LInt 2, [Some 2; Some 12]); (LInt 3, [Some 3; Some 13]) ] |}.

(** The binary64 numbers 0.3 and 1.5. *)
Definition float_0_3 : float := S754_finite false 5404319552844595 (-54).
Definition float_1_5 : float := S754_finite false 6755399441055744 (-52).

Definition data_module (thetas : list Z) (test_fraction : float)
    : TimeVAEDataModule.t Z :=
  {| TimeVAEDataModule.window_size := 2;
     TimeVAEDataModule.batch_size := 32;
     TimeVAEDataModule.dataframe := sample_frame thetas;
     TimeVAEDataModule.test_fraction := test_fraction;
     TimeVAEDataModule.val_fraction := float_0_3;
     TimeVAEDataModule.num_workers := 0 |}.

(** C1, the claim as stated fails: over 2 rows and window size 5 the
    reported length is -2, not [max(0, 2 - 5 + 1) = 0], and [len] raises. *)
Lemma dataset_length_not_clamped :
  (TimeVAEDataset.__len__ (fresh (sample_frame [1; 2]) 5 [])).1
  ≠ Return (Z.max 0 (df_len (sample_frame [1; 2]) - 5 + 1))
  ∧ (TimeVAEDataset.__len__ (fresh (sample_frame [1; 2]) 5 [])).1 = Return (-2)
  ∧ (TimeVAEDataset.len (fresh (sample_frame [1; 2]) 5 [])).1 = Raise ValueError.
Proof. split; [discriminate|]. split; reflexivity. Qed.

Lemma dataset_length_witness :
  (TimeVAEDataset.len (fresh (sample_frame [1; 2]) 1 [])).1 = Return 2
  ∧ (TimeVAEDataset.len (fresh (sample_frame [1; 2]) 5 [])).1 = Raise ValueError
  ∧ (TimeVAEDataset.len (fresh (sample_frame [1; 2]) (- sys_maxsize) [])).1
    = Raise OverflowError.
Proof.
  split; [|split].
  - destruct (dataset_length_unclamped (sample_frame [1; 2]) 1 []) as (_ & _ & H & _).
    rewrite H. reflexivity.
  - destruct (dataset_length_unclamped (sample_frame [1; 2]) 5 []) as (_ & _ & H & _).
    rewrite H. reflexivity.
  - destruct (dataset_length_unclamped (sample_frame [1; 2]) (- sys_maxsize) [])
      as (_ & _ & H & _).
    rewrite H. reflexivity.
Defined.

(** C2, the code at the failing input: over 5 rows and window size 2 the
    length is 4, yet the indices -1 and -3, both outside [[0, 4)], are not
    refused; they return the slices [df[-1:1]] (empty) and [df[-3:-1]]. *)
Theorem getitem_negative_index_accepted :
  TimeVAEDataset.length (TimeVAEDataset.__init__ (sample_frame [1; 2; 3; 4; 5]) 2) = 4
  ∧ (TimeVAEDataset.__getitem__ (KInt (-1)) (fresh (sample_frame [1; 2; 3; 4; 5]) 2 [])).1
    = Return (TimeVAEDataset.Window [])
  ∧ (TimeVAEDataset.__getitem__ (KInt (-3)) (fresh (sample_frame [1; 2; 3; 4; 5]) 2 [])).1
    = Return (TimeVAEDataset.Window [[Some 3]; [Some 4]]).
Proof. split; [reflexivity|]. split; reflexivity. Qed.

Lemma getitem_window_witness :
  (TimeVAEDataset.__getitem__ (KInt 3) (fresh (sample_frame [1; 2; 3; 4; 5]) 2 [])).1
  = Return (TimeVAEDataset.Window [[Some 4]; [Some 5]]).
Proof.
  assert (0 ≤ 2 ≤ df_len (sample_frame [1; 2; 3; 4; 5])) as Hw
    by (vm_compute; split; discriminate).
  assert (0 ≤ 3 < df_len (sample_frame [1; 2; 3; 4; 5]) - 2 + 1) as Hi
    by (vm_compute; split; [discriminate|reflexivity]).
  destruct (getitem_window (sample_frame [1; 2; 3; 4; 5]) 2 3 [] Hw Hi) as [H _].
  rewrite H. reflexivity.
Defined.

(** C4, the claim as stated fails: with length 4, the slice [10:2] has its
    start outside [[0, 4)] and the slice [0:-1] its stop, yet neither is
    refused; each returns the empty list of windows. *)
Lemma getitem_slice_endpoint_outside :
  TimeVAEDataset.length (TimeVAEDataset.__init__ (sample_frame [1; 2; 3; 4; 5]) 2) = 4
  ∧ ¬ (0 ≤ 10 < 4) ∧ ¬ (0 ≤ -1 < 4)
  ∧ (TimeVAEDataset.__getitem__ (KSlice (Some 10) (Some 2) None)
       (fresh (sample_frame [1; 2; 3; 4; 5]) 2 [])).1
    = Return (TimeVAEDataset.Windows [])
  ∧ (TimeVAEDataset.__getitem__ (KSlice (Some 0) (Some (-1)) None)
       (fresh (sample_frame [1; 2; 3; 4; 5]) 2 [])).1
    = Return (TimeVAEDataset.Windows []).
Proof.
  split; [reflexivity|]. split; [lia|]. split; [lia|]. split; reflexivity.
Qed.

Lemma getitem_slice_witness :
  (TimeVAEDataset.__getitem__ (KSlice (Some 1) (Some 3) None)
     (fresh (sample_frame [1; 2; 3; 4; 5]) 2 [])).1
  = Return (TimeVAEDataset.Windows [[[Some 2]; [Some 3]]; [[Some 3]; [Some 4]]]).
Proof.
  destruct (getitem_slice (sample_frame [1; 2; 3; 4; 5]) 2 1 3 None []) as (_ & _ & H).
  rewrite H; [reflexivity|]. vm_compute. intros [H1|H2]; [discriminate|]. by apply H2.
Defined.

Lemma pendulum_generate_witness :
  ∃ table,
    Pendulum.generate 1 1 2 3 1 1 = Return table
    ∧ Z.of_nat (length table) = 6
    ∧ table !! O = Some (0%R, 1%R).
Proof.
  assert (0 < 1)%R as Hg by lra.
  assert (Pendulum.valid 1 2 3 1 1) as Hv
    by (unfold Pendulum.valid; repeat split; (lra || lia)).
  destruct (pendulum_generate 1 1 2 3 1 1 Hg) as [Hvalid _].
  destruct (Hvalid Hv) as (table & Ht & Hlen & _ & _ & Hfirst).
  exists table. split; [exact Ht|]. split; [exact Hlen|exact Hfirst].
Defined.

Lemma VAEDecoder_forward_witness :
  ∃ self,
    VAEDecoder.__init__ (mkVAEDecoderParams [40; 30] 10 50) = Return self
    ∧ VAEDecoder.forward self (Tensor [32; 10]) = Raise (AttributeError "decoder").
Proof.
  destruct (VAEDecoder.__init__ (mkVAEDecoderParams [40; 30] 10 50)) as [self|e] eqn:E.
  - exists self. split; [reflexivity|].
    exact (proj1 (VAEDecoder_forward_raises _ self (Tensor [32; 10]) E)).
  - vm_compute in E. discriminate.
Defined.

(** C9, the claim as stated fails: over 4 rows and the fraction 1.5 the test
    length is 6, and the split is [iloc[:-2]] and [iloc[-2:]]: two rows
    each, not the first [4 - 6] rows and the remaining 6. *)
Lemma split_fraction_above_one :
  TimeVAEDataModule.df_test_length (data_module [1; 2; 3; 4] float_1_5) = Return 6
  ∧ ∃ train test,
      TimeVAEDataModule.train_val_dataframe (data_module [1; 2; 3; 4] float_1_5)
      = Return train
      ∧ TimeVAEDataModule.test_dataframe (data_module [1; 2; 3; 4] float_1_5)
        = Return test
      ∧ values train = [[Some 1]; [Some 2]] ∧ df_len train ≠ 4 - 6
      ∧ values test = [[Some 3]; [Some 4]] ∧ df_len test ≠ 6.
Proof.
  split; [by vm_compute|].
  eexists _, _. split; [by vm_compute|]. split; [by vm_compute|].
  split; [by vm_compute|]. split; [by vm_compute|]. split; by vm_compute.
Qed.

Lemma split_witness :
  ∃ train test,
    TimeVAEDataModule.train_val_dataframe
      (data_module [1; 2; 3; 4; 5; 6; 7; 8; 9; 10] float_0_3) = Return train
    ∧ TimeVAEDataModule.test_dataframe
        (data_module [1; 2; 3; 4; 5; 6; 7; 8; 9; 10] float_0_3) = Return test
    ∧ df_len train = 7 ∧ df_len test = 3.
Proof.
  assert (TimeVAEDataModule.df_test_length
            (data_module [1; 2; 3; 4; 5; 6; 7; 8; 9; 10] float_0_3) = Return 3) as Hk
    by (vm_compute; reflexivity).
  destruct (split_is_ordered_partition _ 3 Hk)
    as (train & test & Htrain & Htest & _ & _ & _ & _ & _ & _ & Hcount).
  exists train, test. split; [exact Htrain|]. split; [exact Htest|].
  destruct Hcount as (H1 & H2 & _); [vm_compute; split; discriminate|].
  split; [exact H1|exact H2].
Defined.

Lemma time_delay_embed_witness :
  ∃ embedded,
    time_delay_embed pendulum_frame 2 = Return embedded
    ∧ values embedded
      = [[Some 10; Some 11]; [Some 11; Some 12]; [Some 12; Some 13]].
Proof.
  assert (layout (columns pendulum_frame) (LStr "theta") 1) as Hl
    by (split; [discriminate|right; split; reflexivity]).
  assert (Forall (λ r : label * list (cell Z), length r.2 = 2%nat) (rows pendulum_frame))
    as Hwf by (repeat constructor).
  assert (1 ≤ 2 ≤ df_len pendulum_frame) as Hw by (vm_compute; split; discriminate).
  destruct (time_delay_embed_rows pendulum_frame (LStr "theta") 1 2 Hl Hwf Hw)
    as (embedded & He & _ & _ & Hv & _).
  exists embedded. split; [exact He|]. rewrite Hv. reflexivity.
Defined.

(** * Further properties *)

(** ** Further properties of [TimeVAEDataset] *)

Lemma range_length_positive_step (start stop step : Z) (k : nat) :
  0 < step → Z.of_nat k < range_length start stop step →
  start ≤ start + Z.of_nat k * step < stop.
Proof.
  intros Hstep Hk. unfold range_length in Hk.
  destruct (Z.ltb_spec 0 step); [|lia].
  destruct (Z.ltb_spec start stop); [|lia].
  assert (Z.of_nat k ≤ (stop - start - 1) `div` step) as Hle by lia.
  pose proof (Z.mul_div_le (stop - start - 1) step Hstep).
  nia.
Qed.

Lemma py_range_positive_step (start stop step : Z) :
  0 < step →
  ∃ indices, py_range start stop step = Return indices
             ∧ Forall (λ i, start ≤ i < stop) indices.
Proof.
  intros Hstep. unfold py_range. destruct (Z.eqb_spec step 0); [lia|].
  eexists. split; [reflexivity|].
  apply Forall_fmap, Forall_forall. intros k Hk. apply elem_of_seq in Hk. simpl.
  apply range_length_positive_step; lia.
Qed.

Section DatasetExtras.
Context {V : Type}.
Implicit Types (df : DataFrame V).

(** X1.  A slice key with [0 <= start], [stop < length] and a positive step
    (1 when absent) returns one window per index of
    [range(start, stop, step)], and the window at each position is the one
    that an int key returns for that index. *)
Theorem slice_agrees_with_int_access df (window_size start stop : Z)
    (step : option Z) (sink : list string) :
  0 < default 1 step → 0 ≤ start → stop < df_len df - window_size + 1 →
  let w := fresh df window_size sink in
  ∃ indices wins,
    py_range start stop (default 1 step) = Return indices
    ∧ TimeVAEDataset.__getitem__ (KSlice (Some start) (Some stop) step) w
      = (Return (TimeVAEDataset.Windows wins), w)
    ∧ Forall2 (λ i win,
                 start ≤ i < stop
                 ∧ TimeVAEDataset.__getitem__ (KInt i) w
                   = (Return (TimeVAEDataset.Window win), w))
              indices wins.
Proof.
  intros Hstep Hstart Hstop w.
  destruct (py_range_positive_step start stop (default 1 step) Hstep)
    as (indices & Hrange & Hin).
  exists indices, (map (window_at (TimeVAEDataset.self w)) indices).
  split; [done|]. split.
  - rewrite getitem_run. simpl.
    destruct (Z.ltb_spec start 0); [lia|]. simpl.
    destruct (Z.leb_spec (df_len df - window_size + 1) stop); [lia|]. simpl.
    replace (match step with Some s => s | None => 1 end) with (default 1 step)
      by by destruct step.
    by rewrite Hrange.
  - apply Forall2_fmap_r, Forall_Forall2_diag.
    eapply Forall_impl; [exact Hin|]. intros i Hi. unfold compose. split; [done|].
    rewrite getitem_run. simpl.
    simpl in Hi. destruct (Z.leb_spec (df_len df - window_size + 1) i); [lia|done].
Qed.

(** X2.  On a dataset with at least one window, the int key [length - 1]
    returns the last window and the slice [0:length] is refused with
    [IndexError]; every slice with a positive step that is accepted only
    visits indices up to [length - 2], so an ascending slice never returns
    the last window.  A descending slice can: [length-1:0:-1] is accepted
    and returns the windows [length - 1, ..., 1] in that order, the last
    window first when there are two windows or more. *)
Theorem last_window_beyond_slices df (window_size : Z) (sink : list string) :
  1 ≤ df_len df - window_size + 1 →
  let w := fresh df window_size sink in
  let len := df_len df - window_size + 1 in
  let last_window := window_at (TimeVAEDataset.self w) (len - 1) in
  let descending :=
    TimeVAEDataset.__getitem__ (KSlice (Some (len - 1)) (Some 0) (Some (-1))) w in
  TimeVAEDataset.__getitem__ (KInt (len - 1)) w
  = (Return (TimeVAEDataset.Window last_window), w)
  ∧ (TimeVAEDataset.__getitem__ (KSlice (Some 0) (Some len) None) w).1
    = Raise IndexError
  ∧ (∀ start stop step wins,
       0 < default 1 step →
       (TimeVAEDataset.__getitem__ (KSlice (Some start) (Some stop) step) w).1
       = Return (TimeVAEDataset.Windows wins) →
       ∃ indices,
         py_range start stop (default 1 step) = Return indices
         ∧ wins = map (window_at (TimeVAEDataset.self w)) indices
         ∧ Forall (λ i, 0 ≤ i ≤ len - 2) indices)
  ∧ descending.1
    = Return (TimeVAEDataset.Windows
                (map (λ k : nat, window_at (TimeVAEDataset.self w) (len - 1 - Z.of_nat k))
                     (seq 0 (Z.to_nat (len - 1)))))
  ∧ (2 ≤ len →
     ∃ others, descending.1 = Return (TimeVAEDataset.Windows (last_window :: others))).
Proof.
  intros Hlen w len last_window descending.
  assert (descending.1
          = Return (TimeVAEDataset.Windows
                      (map (λ k : nat, window_at (TimeVAEDataset.self w)
                                                 (len - 1 - Z.of_nat k))
                           (seq 0 (Z.to_nat (len - 1)))))) as Hdesc.
  { unfold descending. rewrite getitem_run.
    cbn [fst getitem_result py_lt py_ge TimeVAEDataset.range_of obind].
    change (TimeVAEDataset.length (TimeVAEDataset.self w)) with len.
    destruct (Z.ltb_spec (len - 1) 0); [lia|]. cbn [obind].
    destruct (Z.leb_spec len 0); [lia|]. cbn [obind].
    unfold py_range. change (-1 =? 0) with false. cbn [obind].
    assert (range_length (len - 1) 0 (-1) = len - 1) as ->.
    { unfold range_length. change (0 <? -1) with false.
      destruct (Z.ltb_spec 0 (len - 1)); [|lia].
      change (- -1) with 1. rewrite Z.div_1_r. lia. }
    rewrite map_map. do 2 f_equal. apply map_ext. intros k. f_equal. lia. }
  split; [|split; [|split; [|split]]].
  - rewrite getitem_run. simpl. fold len.
    destruct (Z.leb_spec len (len - 1)); [lia|done].
  - rewrite getitem_run. simpl. fold len.
    destruct (Z.leb_spec len len); [done|lia].
  - intros start stop step wins Hstep. rewrite getitem_run. simpl. fold len.
    replace (match step with Some s => s | None => 1 end) with (default 1 step)
      by by destruct step.
    destruct (Z.ltb_spec start 0); simpl; [done|].
    destruct (Z.leb_spec len stop); simpl; [done|].
    destruct (py_range_positive_step start stop (default 1 step) Hstep)
      as (indices & -> & Hin). simpl.
    intros [= <-]. exists indices. split; [done|]. split; [done|].
    eapply Forall_impl; [exact Hin|]. simpl. lia.
  - exact Hdesc.
  - intros H2. rewrite Hdesc.
    assert (∃ m : nat, Z.to_nat (len - 1) = S m) as [m ->]
      by (exists (Z.to_nat (len - 2)); lia).
    cbn [seq map]. eexists. do 3 f_equal. unfold last_window. f_equal. lia.
Qed.

(** X3.  Two consecutive windows overlap in all but one row: window
    [idx + 1] starts with window [idx] minus its first row, and ends with
    the table row [idx + window_size]. *)
Theorem consecutive_windows_overlap df (window_size idx : Z) (sink : list string) :
  1 ≤ window_size → 0 ≤ idx → idx + 1 < df_len df - window_size + 1 →
  let w := fresh df window_size sink in
  ∃ a b,
    TimeVAEDataset.__getitem__ (KInt idx) w = (Return (TimeVAEDataset.Window a), w)
    ∧ TimeVAEDataset.__getitem__ (KInt (idx + 1)) w
      = (Return (TimeVAEDataset.Window b), w)
    ∧ drop 1 a = take (Z.to_nat (window_size - 1)) b
    ∧ b !! Z.to_nat (window_size - 1) = values df !! Z.to_nat (idx + window_size).
Proof.
  intros Hw Hi Hlen w.
  exists (rows_between (values df) idx (idx + window_size)),
         (rows_between (values df) (idx + 1) (idx + 1 + window_size)).
  split; [|split; [|split]].
  - rewrite getitem_run. simpl.
    destruct (Z.leb_spec (df_len df - window_size + 1) idx); [lia|].
    by rewrite window_at_inside by lia.
  - rewrite getitem_run. simpl.
    destruct (Z.leb_spec (df_len df - window_size + 1) (idx + 1)); [lia|].
    by rewrite window_at_inside by lia.
  - unfold rows_between.
    rewrite skipn_firstn_comm, drop_drop, take_take.
    f_equal; [lia|]. f_equal. lia.
  - unfold ndarray. rewrite lookup_rows_between by lia. f_equal. lia.
Qed.

(** X4.  When [1 <= window_size <= rows], every row of the table occurs
    in a window that some valid int key returns. *)
Theorem every_row_in_some_window df (window_size : Z) (sink : list string)
    (p : nat) (row : list (cell V)) :
  1 ≤ window_size ≤ df_len df → values df !! p = Some row →
  let w := fresh df window_size sink in
  ∃ (i : Z) (win : ndarray V) (k : nat),
    0 ≤ i < df_len df - window_size + 1
    ∧ TimeVAEDataset.__getitem__ (KInt i) w = (Return (TimeVAEDataset.Window win), w)
    ∧ win !! k = Some row.
Proof.
  intros Hw Hp w.
  assert (Z.of_nat p < df_len df) as Hlt.
  { apply lookup_lt_Some in Hp. unfold values in Hp. rewrite length_fmap in Hp.
    unfold df_len. lia. }
  set (i := Z.min (Z.of_nat p) (df_len df - window_size)).
  exists i, (rows_between (values df) i (i + window_size)), (Z.to_nat (Z.of_nat p - i)).
  split; [lia|]. split.
  - rewrite getitem_run. simpl.
    destruct (Z.leb_spec (df_len df - window_size + 1) i); [lia|].
    by rewrite window_at_inside by lia.
  - unfold ndarray. rewrite lookup_rows_between by lia. rewrite <-Hp. f_equal. lia.
Qed.

(** X5.  With a window at least as long as the table, a non-negative int
    key is refused unless the window is exactly as long as the table and
    the key is 0, in which case the window is the whole table. *)
Theorem window_not_shorter_than_table df (window_size idx : Z) (sink : list string) :
  df_len df ≤ window_size → 0 ≤ idx →
  (TimeVAEDataset.__getitem__ (KInt idx) (fresh df window_size sink)).1
  = if (window_size =? df_len df) && (idx =? 0)
    then Return (TimeVAEDataset.Window (values df))
    else Raise IndexError.
Proof.
  intros Hw Hi. rewrite getitem_run. simpl.
  destruct (Z.eqb_spec window_size (df_len df)) as [->|Hne]; simpl.
  - destruct (Z.eqb_spec idx 0) as [->|Hne].
    + destruct (Z.leb_spec (df_len df - df_len df + 1) 0); [lia|].
      rewrite window_at_inside by (unfold df_len; lia).
      do 2 f_equal. unfold rows_between. simpl. rewrite drop_0.
      apply take_ge. unfold values, df_len. rewrite length_fmap. lia.
    + destruct (Z.leb_spec (df_len df - df_len df + 1) idx); [done|lia].
  - destruct (Z.leb_spec (df_len df - window_size + 1) idx); [done|lia].
Qed.
End DatasetExtras.

Lemma shr_1_nonneg (mrs : shr_record) : 0 ≤ shr_m mrs → 0 ≤ shr_m (shr_1 mrs).
Proof. destruct mrs as [[|[p|p|]|p] r s]; simpl; lia. Qed.

Lemma iter_pos_invariant {A} (f : A → A) (P : A → Prop) (n : positive) (x : A) :
  (∀ y, P y → P (f y)) → P x → P (SpecFloat.iter_pos f n x).
Proof.
  intros Hf. revert x. induction n as [n IH|n IH|]; intros x Hx; simpl; auto.
Qed.

Lemma shr_nonneg (mrs : shr_record) (e n : Z) : 0 ≤ shr_m mrs → 0 ≤ shr_m (shr mrs e n).1.
Proof.
  intros H. unfold shr. destruct n; simpl; [done| |done].
  by apply iter_pos_invariant; [apply shr_1_nonneg|].
Qed.

Lemma binary_round_aux_not_nan (sx : bool) (mx ex : Z) (lx : location) :
  0 ≤ mx → binary_round_aux prec emax sx mx ex lx ≠ S754_nan.
Proof.
  intros Hmx. unfold binary_round_aux.
  destruct (shr_fexp prec emax mx ex lx) as [mrs' e'] eqn:E1.
  assert (0 ≤ shr_m mrs') as H1.
  { unfold shr_fexp in E1.
    pose proof (shr_nonneg (shr_record_of_loc mx lx) ex
                  (fexp prec emax (Zdigits2 mx + ex) - ex)) as H.
    rewrite E1 in H. apply H. by destruct lx as [|[]]. }
  set (m1 := round_nearest_even (shr_m mrs') (loc_of_shr_record mrs')).
  assert (0 ≤ m1) as Hm1.
  { unfold m1, round_nearest_even.
    destruct (loc_of_shr_record mrs') as [|[]]; try done; [|lia].
    destruct (Z.even _); lia. }
  destruct (shr_fexp prec emax m1 e' loc_Exact) as [mrs'' e''] eqn:E2.
  assert (0 ≤ shr_m mrs'') as H2.
  { unfold shr_fexp in E2.
    pose proof (shr_nonneg (shr_record_of_loc m1 loc_Exact) e'
                  (fexp prec emax (Zdigits2 m1 + e') - e')) as H.
    rewrite E2 in H. by apply H. }
  destruct (shr_m mrs'') as [|p|p]; [done| |lia].
  by destruct (_ <=? _).
Qed.

Lemma float_of_int_not_nan (n : Z) : float_of_int n ≠ Return S754_nan.
Proof.
  unfold float_of_int.
  assert (binary_normalize prec emax n 0 false ≠ S754_nan) as H.
  { unfold binary_normalize. destruct n as [|m|m]; [done| |];
      unfold binary_round;
      destruct (shl_align _ _ _) as [mz ez]; by apply binary_round_aux_not_nan. }
  destruct (binary_normalize prec emax n 0 false); congruence.
Qed.

Section SplitExtras.
Context {V : Type}.
Implicit Types (self : TimeVAEDataModule.t V).

(** X6.  When the test length [k] lies in [[0, n]], the two datasets of
    the data module have [n - k - window_size + 1] and
    [k - window_size + 1] windows, window [i] of the training dataset is
    window [i] of the dataset over the whole table, and window [i] of the
    test dataset is its window [n - k + i]: no window mixes the two parts. *)
Theorem split_datasets_windows self (k : Z) (sink : list string) :
  TimeVAEDataModule.df_test_length self = Return k →
  let df := TimeVAEDataModule.dataframe self in
  let ws := TimeVAEDataModule.window_size self in
  let n := df_len df in
  let whole := TimeVAEDataset.mkWorld (TimeVAEDataset.__init__ df ws) sink in
  0 ≤ k ≤ n → 0 ≤ ws →
  ∃ train test,
    TimeVAEDataModule.train_val_dataset self = Return train
    ∧ TimeVAEDataModule.test_dataset self = Return test
    ∧ TimeVAEDataset.length train = n - k - ws + 1
    ∧ TimeVAEDataset.length test = k - ws + 1
    ∧ (∀ i, 0 ≤ i < TimeVAEDataset.length train →
         (TimeVAEDataset.__getitem__ (KInt i) (TimeVAEDataset.mkWorld train sink)).1
         = (TimeVAEDataset.__getitem__ (KInt i) whole).1)
    ∧ (∀ i, 0 ≤ i < TimeVAEDataset.length test →
         (TimeVAEDataset.__getitem__ (KInt i) (TimeVAEDataset.mkWorld test sink)).1
         = (TimeVAEDataset.__getitem__ (KInt (n - k + i)) whole).1).
Proof.
  intros Hk df ws n whole Hrange Hws.
  exists (TimeVAEDataset.__init__ (df_slice df None (Some (n - k))) ws),
         (TimeVAEDataset.__init__ (df_slice df (Some (n - k)) None) ws).
  split; [|split].
  { unfold TimeVAEDataModule.train_val_dataset, TimeVAEDataModule.train_val_dataframe,
      TimeVAEDataModule.df_train_val_length. by rewrite Hk. }
  { unfold TimeVAEDataModule.test_dataset, TimeVAEDataModule.test_dataframe,
      TimeVAEDataModule.df_train_val_length. by rewrite Hk. }
  assert (Z.of_nat (length (values df)) = n) as Hn
    by (unfold values, n, df_len; by rewrite length_fmap).
  assert (df_len (df_slice df None (Some (n - k))) = n - k) as Htrain.
  { unfold df_len. simpl. apply length_py_slice_prefix. fold (df_len df). fold n. lia. }
  assert (df_len (df_slice df (Some (n - k)) None) = k) as Htest.
  { unfold df_len. simpl. rewrite length_py_slice_suffix; fold (df_len df); fold n; lia. }
  split; [simpl; lia|]. split; [simpl; lia|]. split.
  - intros i Hi. simpl in Hi. rewrite !getitem_run. simpl. rewrite Htrain. fold n.
    destruct (Z.leb_spec (n - k - ws + 1) i); [lia|].
    destruct (Z.leb_spec (n - ws + 1) i); [lia|].
    do 2 f_equal. unfold window_at. simpl. rewrite !values_df_slice.
    rewrite (py_slice_inside (values df)) by lia.
    assert (py_slice (values df) None (Some (n - k)) = take (Z.to_nat (n - k)) (values df))
      as ->.
    { unfold py_slice. simpl. rewrite clamp_bound_inside by lia.
      rewrite Z.sub_0_r. change (Z.to_nat 0) with O. by rewrite drop_0. }
    rewrite py_slice_inside by (rewrite length_take; lia).
    unfold rows_between. rewrite skipn_firstn_comm, take_take.
    f_equal. lia.
  - intros i Hi. simpl in Hi. rewrite !getitem_run. simpl. rewrite Htest. fold n.
    destruct (Z.leb_spec (k - ws + 1) i); [lia|].
    destruct (Z.leb_spec (n - ws + 1) (n - k + i)); [lia|].
    do 2 f_equal. unfold window_at. simpl. rewrite !values_df_slice.
    rewrite (py_slice_inside (values df)) by lia.
    assert (py_slice (values df) (Some (n - k)) None = drop (Z.to_nat (n - k)) (values df))
      as ->.
    { unfold py_slice. simpl. rewrite clamp_bound_inside by lia.
      apply take_ge. rewrite length_drop. lia. }
    rewrite py_slice_inside by (rewrite length_drop; lia).
    unfold rows_between. rewrite drop_drop.
    f_equal; [lia|]. f_equal. lia.
Qed.

(** X7.  With a test fraction of zero (and a row count that converts to a
    float), the test length is 0, the training frame is the whole table and
    the test frame is empty, so that [len(self.test_dataset)], which
    [predict_dataloader] evaluates, raises [ValueError] once the window
    size exceeds 1, raises [OverflowError] when [1 - window_size] is beyond
    [sys.maxsize], and is [1 - window_size] otherwise. *)
Theorem zero_test_fraction self (s : bool) :
  TimeVAEDataModule.test_fraction self = S754_zero s →
  TimeVAEDataModule.df_test_length self ≠ Raise OverflowError →
  let df := TimeVAEDataModule.dataframe self in
  let ws := TimeVAEDataModule.window_size self in
  TimeVAEDataModule.df_test_length self = Return 0
  ∧ (∃ train, TimeVAEDataModule.train_val_dataframe self = Return train
              ∧ rows train = rows df)
  ∧ (∃ test, TimeVAEDataModule.test_dataframe self = Return test ∧ rows test = [])
  ∧ predict_batch_size self
    = if 1 <? ws then Raise ValueError
      else if ws <? 1 - sys_maxsize then Raise OverflowError
      else Return (1 - ws).
Proof.
  intros Hz Hov df ws.
  assert (TimeVAEDataModule.df_test_length self = Return 0) as Hk.
  { revert Hov. unfold TimeVAEDataModule.df_test_length, int_mul_float. rewrite Hz.
    pose proof (float_of_int_not_nan (TimeVAEDataModule.df_length self)) as Hnan.
    unfold float_of_int in *.
    destruct (binary_normalize prec emax (TimeVAEDataModule.df_length self) 0 false);
      simpl in *; congruence. }
  split; [done|].
  unfold predict_batch_size, TimeVAEDataModule.test_dataset,
    TimeVAEDataModule.train_val_dataframe, TimeVAEDataModule.test_dataframe,
    TimeVAEDataModule.df_train_val_length. rewrite Hk. simpl.
  unfold TimeVAEDataModule.df_length. fold df ws. rewrite Z.sub_0_r.
  assert (py_slice (rows df) None (Some (df_len df)) = rows df) as Hall.
  { unfold py_slice. simpl. rewrite clamp_bound_inside by (unfold df_len; lia).
    rewrite Z.sub_0_r. change (Z.to_nat 0) with O. rewrite drop_0.
    apply take_ge. unfold df_len. lia. }
  assert (py_slice (rows df) (Some (df_len df)) None = []) as Hnone.
  { unfold py_slice. simpl. rewrite clamp_bound_inside by (unfold df_len; lia).
    rewrite drop_ge by (unfold df_len; lia). by rewrite take_nil. }
  split; [eexists; split; [reflexivity|exact Hall]|].
  split; [eexists; split; [reflexivity|exact Hnone]|].
  unfold TimeVAEDataset.len, TimeVAEDataset.bind, TimeVAEDataset.lift. simpl.
  unfold df_len at 1. simpl. rewrite Hnone. simpl.
  unfold py_len. change (Z.of_nat 0) with 0.
  destruct (Z.ltb_spec (0 - ws + 1) 0), (Z.ltb_spec 1 ws); try lia; [done|].
  destruct (Z.ltb_spec sys_maxsize (0 - ws + 1)), (Z.ltb_spec ws (1 - sys_maxsize));
    try lia; [done|].
  f_equal. lia.
Qed.
End SplitExtras.

(** ** Further properties of [time_delay_embed] *)

(** The filter behind [drop(columns=["t"])]. *)
Definition not_t (c : label) : bool := negb (bool_decide (c = LStr "t")).

(** Row and column labels [0 .. n - 1]. *)
Definition range_labels (n : nat) : list label :=
  (λ i : nat, LInt (Z.of_nat i)) <$> seq 0 n.

(** The frame that one pass of the loop appends, for any column layout. *)
Definition embedded_frame {V} (f : DataFrame V) : DataFrame V :=
  reset_index (transpose
    {| index_type := RangeIndex;
       columns := filter (λ c, not_t c = true) (columns f);
       rows := map (λ r, (r.1, select_cells not_t (columns f) r.2))
                   (rows (reset_index f)) |}).

Lemma embed_window_general {V} (f : DataFrame V) :
  LStr "t" ∈ columns f → rows f ≠ [] → embed_window f = Return (embedded_frame f).
Proof.
  intros Ht Hne. unfold embed_window, column_attr.
  destruct (list_find (λ c, c = LStr "t") (columns f)) as [[j c]|] eqn:Hfind.
  2:{ apply list_find_None in Hfind. rewrite Forall_forall in Hfind.
      by destruct (Hfind _ Ht eq_refl). }
  simpl. destruct (rows f) as [|r rs] eqn:Hrows; [congruence|]. simpl.
  unfold drop_column. simpl. rewrite bool_decide_eq_true_2 by done. simpl.
  unfold embedded_frame, reset_index. simpl. by rewrite Hrows.
Qed.

Lemma embed_window_without_t {V} (f : DataFrame V) :
  LStr "t" ∉ columns f → embed_window f = Raise (AttributeError "t").
Proof.
  intros Ht. unfold embed_window, column_attr.
  destruct (list_find (λ c, c = LStr "t") (columns f)) as [[j c]|] eqn:Hfind; [|done].
  apply list_find_Some in Hfind as (Hj & -> & _).
  destruct Ht. by eapply list_elem_of_lookup_2.
Qed.

Lemma embed_window_empty {V} (f : DataFrame V) :
  LStr "t" ∈ columns f → rows f = [] → embed_window f = Raise IndexError.
Proof.
  intros Ht Hnil. unfold embed_window, column_attr.
  destruct (list_find (λ c, c = LStr "t") (columns f)) as [[j c]|] eqn:Hfind.
  2:{ apply list_find_None in Hfind. rewrite Forall_forall in Hfind.
      by destruct (Hfind _ Ht eq_refl). }
  by rewrite Hnil.
Qed.

Lemma columns_embedded_frame {V} (f : DataFrame V) :
  columns (embedded_frame f) = range_labels (length (rows f)).
Proof.
  unfold embedded_frame, reset_index, transpose, index. simpl.
  rewrite <-list_fmap_compose, fmap_imap.
  apply (imap_seq_0 (rows f) (λ i : nat, LInt (Z.of_nat i))).
Qed.

Lemma index_embedded_frame {V} (f : DataFrame V) :
  index (embedded_frame f)
  = range_labels (length (filter (λ c, not_t c = true) (columns f))).
Proof.
  unfold embedded_frame, reset_index, transpose, index. simpl.
  rewrite fmap_imap.
  etransitivity; [apply (imap_seq_0 _ (λ i : nat, LInt (Z.of_nat i)))|].
  by rewrite length_imap.
Qed.

Lemma for_each_raises {A B} (f : A → outcome B) (a : A) (l : list A) (e : PyError) :
  f a = Raise e → for_each f (a :: l) = Raise e.
Proof. intros H. simpl. by rewrite H. Qed.

Lemma concat_agreeing_columns {V} (frames : list (DataFrame V)) (cols : list label) :
  frames ≠ [] → Forall (λ g, columns g = cols) frames →
  ∃ e, concat frames = Return e
       ∧ columns e = cols
       ∧ rows e = mjoin (map rows frames).
Proof.
  intros Hne Hc. destruct frames as [|f others]; [done|].
  rewrite (concat_same_columns _ _ cols) by done.
  eexists. split; [reflexivity|]. done.
Qed.

Lemma fmap_const_replicate {A B} (x : B) (l : list A) :
  (λ _, x) <$> l = replicate (length l) x.
Proof. induction l as [|a l IH]; [done|]. csimpl. by rewrite IH. Qed.

Lemma fmap_fst_join_rows {V} (frames : list (DataFrame V)) :
  (mjoin (map rows frames)).*1 = mjoin (map index frames).
Proof.
  induction frames as [|g frames IH]; [done|].
  simpl. by rewrite fmap_app, IH.
Qed.

Lemma map_constant {A B} (h : A → B) (c : B) (l : list A) :
  Forall (λ x, h x = c) l → map h l = replicate (length l) c.
Proof. induction 1 as [|x l Hx _ IH]; [done|]. simpl. by rewrite Hx, IH. Qed.

Section EmbeddingExtras.
Context {V : Type}.
Implicit Types (df : DataFrame V).

(** The window that the rolling iteration yields at row [i]. *)
Definition rolling_window df (w : Z) (i : nat) : DataFrame V :=
  df_slice df (Some (Z.max 0 (Z.of_nat i + 1 - w))) (Some (Z.of_nat i + 1)).

Lemma rows_rolling_window df (w : Z) (i : nat) :
  0 ≤ w → (i < length (rows df))%nat →
  rows (rolling_window df w i)
  = rows_between (rows df) (Z.max 0 (Z.of_nat i + 1 - w)) (Z.of_nat i + 1).
Proof. intros Hw Hi. unfold rolling_window. simpl. apply py_slice_inside; lia. Qed.

Lemma time_delay_embed_loop df (w : Z) :
  0 ≤ w ≤ Z.max int64_max (df_len df) →
  time_delay_embed df w
  = let* dfs_embedded :=
      for_each embed_window
               (map (rolling_window df w) (seq 0 (length (rows df)))) in
    concat (py_slice dfs_embedded (Some (w - 1)) None).
Proof.
  intros Hw. unfold time_delay_embed. by rewrite rolling_windows.
Qed.

(** With a window of one row or more, every pass of the loop succeeds. *)
Lemma embed_all_windows df (w : Z) :
  LStr "t" ∈ columns df → 1 ≤ w →
  for_each embed_window (map (rolling_window df w) (seq 0 (length (rows df))))
  = Return (map embedded_frame (map (rolling_window df w) (seq 0 (length (rows df))))).
Proof.
  intros Ht Hw. apply for_each_map. intros a Ha.
  apply list_elem_of_fmap in Ha as (i & -> & Hi). apply elem_of_seq in Hi.
  apply embed_window_general; [done|].
  rewrite rows_rolling_window by lia. intros Hnil.
  apply (f_equal length) in Hnil. unfold rows_between in Hnil.
  rewrite length_take, length_drop in Hnil. simpl in Hnil. lia.
Qed.

(** The frames that reach [pd.concat] when the window fits the table: one
    per full window, the partial ones being sliced away. *)
Definition full_window_frames df (w : Z) : list (DataFrame V) :=
  (λ k : nat, embedded_frame (rolling_window df w (Z.to_nat (w - 1) + k)%nat))
  <$> seq 0 (Z.to_nat (df_len df - w + 1)).

Lemma rows_full_window df (w : Z) (k : nat) :
  1 ≤ w → Z.of_nat k < df_len df - w + 1 →
  rows (rolling_window df w (Z.to_nat (w - 1) + k)%nat)
  = rows_between (rows df) (Z.of_nat k) (Z.of_nat k + w).
Proof.
  intros Hw Hk. unfold df_len in Hk. rewrite rows_rolling_window by lia.
  f_equal; lia.
Qed.

Lemma time_delay_embed_frames df (w : Z) :
  LStr "t" ∈ columns df → 1 ≤ w ≤ df_len df →
  ∃ embedded,
    time_delay_embed df w = Return embedded
    ∧ columns embedded = range_labels (Z.to_nat w)
    ∧ rows embedded = mjoin (map rows (full_window_frames df w)).
Proof.
  intros Ht Hw. rewrite time_delay_embed_loop by lia.
  rewrite (embed_all_windows df w) by (done || lia). simpl.
  assert (py_slice (map embedded_frame
                      (map (rolling_window df w) (seq 0 (length (rows df)))))
                   (Some (w - 1)) None = full_window_frames df w) as ->.
  { unfold py_slice, full_window_frames, df_len in *. simpl.
    rewrite !length_map, length_seq.
    rewrite clamp_bound_inside by lia.
    rewrite take_ge by (rewrite length_drop, !length_map, length_seq; lia).
    rewrite <-!fmap_drop, drop_seq. simpl.
    replace (length (rows df) - Z.to_nat (w - 1))%nat
      with (Z.to_nat (Z.of_nat (length (rows df)) - w + 1)) by lia.
    set (M := Z.to_nat (Z.of_nat (length (rows df)) - w + 1)).
    replace (seq (Z.to_nat (w - 1)) M) with (Nat.add (Z.to_nat (w - 1)) <$> seq 0 M)
      by (rewrite fmap_add_seq; f_equal; lia).
    by rewrite <-!list_fmap_compose. }
  destruct (concat_agreeing_columns (full_window_frames df w) (range_labels (Z.to_nat w)))
    as (e & He & Hc & Hr).
  { intros Hnil. apply (f_equal length) in Hnil. unfold full_window_frames in Hnil.
    rewrite length_fmap, length_seq in Hnil. simpl in Hnil. lia. }
  { unfold full_window_frames. apply Forall_fmap, Forall_forall. intros k Hk.
    apply elem_of_seq in Hk. unfold compose. cbv beta.
    rewrite columns_embedded_frame, rows_full_window by lia.
    f_equal. apply Nat2Z.inj. rewrite length_rows_between; unfold df_len in *; lia. }
  by exists e.
Qed.

(** X9.  Whenever the frame has a column [t] and [1 <= w <= rows], the
    embedding has the columns [0 .. w - 1], holds one row per window and
    per column other than [t], and labels the rows of each window
    [0, 1, ...] afresh: the index repeats and no time stamp survives. *)
Theorem time_delay_embed_labels df (w : Z) :
  LStr "t" ∈ columns df → 1 ≤ w ≤ df_len df →
  let value_columns := filter (λ c, c ≠ LStr "t") (columns df) in
  let windows := Z.to_nat (df_len df - w + 1) in
  ∃ embedded,
    time_delay_embed df w = Return embedded
    ∧ columns embedded = range_labels (Z.to_nat w)
    ∧ index embedded = mjoin (replicate windows (range_labels (length value_columns)))
    ∧ df_len embedded = Z.of_nat windows * Z.of_nat (length value_columns).
Proof.
  intros Ht Hw value_columns windows.
  destruct (time_delay_embed_frames df w Ht Hw) as (e & He & Hc & Hr).
  exists e. split; [done|]. split; [done|].
  assert (length value_columns
          = length (filter (λ c, not_t c = true) (columns df))) as Hm.
  { unfold value_columns. f_equal. apply list_filter_iff. intros c. unfold not_t.
    rewrite negb_true_iff, bool_decide_eq_false. done. }
  assert (index e = mjoin (replicate windows (range_labels (length value_columns))))
    as Hindex.
  { unfold index at 1. rewrite Hr, fmap_fst_join_rows. f_equal.
    unfold full_window_frames. rewrite <-list_fmap_compose. fold windows.
    rewrite <-(length_seq windows 0) at 2. rewrite <-fmap_const_replicate.
    apply Forall_fmap_ext_1, Forall_forall. intros k Hk. unfold compose.
    by rewrite index_embedded_frame, Hm. }
  split; [done|].
  unfold df_len. rewrite <-(length_fmap fst). fold (index e). rewrite Hindex.
  rewrite length_join, fmap_replicate. unfold range_labels.
  rewrite length_fmap, length_seq.
  generalize (length value_columns). intros m. clear.
  induction windows as [|k IH]; simpl; [lia|]. rewrite Nat2Z.inj_add, IH. lia.
Qed.

(** X8.  [time_delay_embed] returns a frame exactly when
    [1 <= w <= rows] and the frame has a column [t].  Otherwise a negative
    window raises [ValueError] and a window beyond int64 raises
    [OverflowError], whatever the frame; for a window in between, an empty
    frame raises [ValueError], a missing column [t] raises
    [AttributeError], a window of 0 raises [IndexError], and a window
    longer than the frame raises [ValueError].  ([top] is [int64_max] for
    every frame whose row count is an int64.) *)
Theorem time_delay_embed_outcome df (w : Z) :
  let n := df_len df in
  let top := Z.max int64_max n in
  (succeeds (time_delay_embed df w) ↔ 1 ≤ w ≤ n ∧ LStr "t" ∈ columns df)
  ∧ (w < 0 → time_delay_embed df w = Raise ValueError)
  ∧ (top < w → time_delay_embed df w = Raise OverflowError)
  ∧ (0 ≤ w ≤ top → n = 0 → time_delay_embed df w = Raise ValueError)
  ∧ (0 ≤ w ≤ top → 1 ≤ n → LStr "t" ∉ columns df →
     time_delay_embed df w = Raise (AttributeError "t"))
  ∧ (w = 0 → 1 ≤ n → LStr "t" ∈ columns df →
     time_delay_embed df w = Raise IndexError)
  ∧ (n < w ≤ top → 1 ≤ n → LStr "t" ∈ columns df →
     time_delay_embed df w = Raise ValueError).
Proof.
  intros n top.
  assert (0 < int64_max) as Hmax by done.
  assert (w < 0 → time_delay_embed df w = Raise ValueError) as Hneg.
  { intros Hw. unfold time_delay_embed, rolling.
    by destruct (Z.ltb_spec w 0); [|lia]. }
  assert (top < w → time_delay_embed df w = Raise OverflowError) as Hover.
  { intros Hw. unfold time_delay_embed, rolling. fold n top.
    destruct (Z.ltb_spec w 0); [lia|].
    by destruct (Z.ltb_spec top w); [|lia]. }
  assert (0 ≤ w ≤ top → n = 0 → time_delay_embed df w = Raise ValueError) as Hempty.
  { intros Hw Hn. rewrite time_delay_embed_loop by done.
    unfold n, df_len in Hn. destruct (rows df); [|simpl in Hn; lia].
    simpl. unfold py_slice. simpl. by rewrite drop_nil, take_nil. }
  assert (∀ N : nat, (1 ≤ N)%nat → seq 0 N = O :: seq 1 (N - 1)) as Hseq.
  { intros [|N] HN; [lia|]. simpl. by rewrite Nat.sub_0_r. }
  assert (0 ≤ w ≤ top → 1 ≤ n → LStr "t" ∉ columns df →
          time_delay_embed df w = Raise (AttributeError "t")) as Hmissing.
  { intros Hw Hn Ht. rewrite time_delay_embed_loop by done.
    unfold n, df_len in Hn. rewrite Hseq by lia. cbn [map].
    by rewrite (for_each_raises _ _ _ (AttributeError "t"))
      by by apply embed_window_without_t. }
  assert (w = 0 → 1 ≤ n → LStr "t" ∈ columns df →
          time_delay_embed df w = Raise IndexError) as Hzero.
  { intros -> Hn Ht. rewrite time_delay_embed_loop by lia.
    unfold n, df_len in Hn. rewrite Hseq by lia. cbn [map].
    rewrite (for_each_raises _ _ _ IndexError); [done|].
    apply embed_window_empty; [done|].
    rewrite rows_rolling_window by lia. unfold rows_between. simpl. apply take_0. }
  assert (n < w ≤ top → 1 ≤ n → LStr "t" ∈ columns df →
          time_delay_embed df w = Raise ValueError) as Hlong.
  { intros Hw Hn Ht. rewrite time_delay_embed_loop by (fold n top; lia).
    rewrite (embed_all_windows df w) by (done || lia). simpl.
    unfold n, df_len in *.
    assert (py_slice (map embedded_frame
                        (map (rolling_window df w) (seq 0 (length (rows df)))))
                     (Some (w - 1)) None = []) as ->; [|done].
    unfold py_slice. simpl. rewrite !length_map, length_seq.
    unfold clamp_bound. destruct (Z.ltb_spec (w - 1) 0); [lia|].
    rewrite Z.min_r by lia. rewrite Nat2Z.id.
    rewrite drop_ge by (rewrite !length_map, length_seq; lia). apply take_nil. }
  split; [|done].
  split.
  - intros [e He].
    destruct (Z.lt_ge_cases w 0); [rewrite Hneg in He; done|].
    destruct (Z.lt_ge_cases top w); [rewrite Hover in He; done|].
    destruct (Z.eq_dec n 0); [rewrite Hempty in He; done|].
    assert (1 ≤ n) by (unfold n, df_len in *; lia).
    destruct (decide (LStr "t" ∈ columns df)); [|rewrite Hmissing in He; done].
    destruct (Z.eq_dec w 0); [rewrite Hzero in He; done|].
    destruct (Z.lt_ge_cases n w); [rewrite Hlong in He; done|].
    split; [lia|done].
  - intros [Hw Ht].
    destruct (time_delay_embed_frames df w Ht Hw) as (e & He & _).
    by exists e.
Qed.

Lemma embedded_frame_layout (f : DataFrame V) (value : label) (j : nat) :
  layout (columns f) value j →
  Forall (λ r, length r.2 = 2%nat) (rows f) →
  rows f ≠ [] →
  rows (embedded_frame f) = [(LInt 0, series_of j (values f))].
Proof.
  intros Hl Hwf Hne.
  assert (LStr "t" ∈ columns f) as Ht
    by (destruct Hl as [_ [[_ Hc]|[_ Hc]]]; rewrite Hc; repeat constructor).
  pose proof (embed_window_general f Ht Hne) as H1.
  rewrite (embed_window_frame f value j Hl Hwf Hne) in H1.
  assert (∀ x y : DataFrame V, Return x = Return y → x = y) as Hinj
    by (intros x y Hxy; congruence).
  apply Hinj in H1. by rewrite <-H1.
Qed.

Lemma getitem_value_column df (value : label) (j : nat) :
  layout (columns df) value j →
  Forall (λ r, length r.2 = 2%nat) (rows df) →
  ∃ one, getitem_columns df [value] = Return one
         ∧ columns one = [value]
         ∧ values one = (λ c, [c]) <$> series_of j (values df).
Proof.
  intros [Hv Hl] Hwf. unfold getitem_columns. simpl.
  rewrite bool_decide_eq_true_2 by (destruct Hl as [[_ ->]|[_ ->]]; set_solver).
  simpl. eexists. split; [reflexivity|]. simpl. split.
  - rewrite app_nil_r.
    destruct Hl as [[_ ->]|[_ ->]]; rewrite !filter_cons, filter_nil;
      repeat (case_decide; try congruence).
  - unfold values, series_of. simpl. rewrite <-!list_fmap_compose.
    apply Forall_fmap_ext_1. eapply Forall_impl; [exact Hwf|].
    intros [l r] Hr. simpl in *. rewrite app_nil_r.
    destruct r as [|c0 [|c1 [|]]]; try done.
    destruct Hl as [[-> ->]|[-> ->]]; simpl; rewrite !filter_cons, filter_nil; simpl;
      repeat (case_decide; try congruence); done.
Qed.

(** X10.  On a frame made of [t] and one value column, the embedding and
    a [TimeVAEDataset] over that value column alone enumerate the same
    windows: they have the same length, and row [i] of the embedding lists
    the cells of the window that the dataset returns at [i]. *)
Theorem embedding_matches_dataset df (value : label) (j : nat) (w : Z)
    (sink : list string) :
  layout (columns df) value j →
  Forall (λ r, length r.2 = 2%nat) (rows df) →
  1 ≤ w ≤ df_len df →
  ∃ embedded one,
    time_delay_embed df w = Return embedded
    ∧ getitem_columns df [value] = Return one
    ∧ TimeVAEDataset.length (TimeVAEDataset.__init__ one w) = df_len embedded
    ∧ ∀ i : nat, Z.of_nat i < df_len embedded →
        ∃ row : list (cell V),
          values embedded !! i = Some row
          ∧ TimeVAEDataset.__getitem__ (KInt (Z.of_nat i)) (fresh one w sink)
            = (Return (TimeVAEDataset.Window ((λ c, [c]) <$> row)), fresh one w sink).
Proof.
  intros Hl Hwf Hw.
  assert (LStr "t" ∈ columns df) as Ht
    by (destruct Hl as [_ [[_ Hc]|[_ Hc]]]; rewrite Hc; repeat constructor).
  destruct (time_delay_embed_frames df w Ht Hw) as (e & He & Hc & Hr).
  destruct (getitem_value_column df value j Hl Hwf) as (one & Hone & Hcols & Hvals).
  exists e, one. split; [done|]. split; [done|].
  set (M := Z.to_nat (df_len df - w + 1)).
  set (series := series_of j (values df)) in *.
  assert (rows e = (λ k : nat, (LInt 0, rows_between series (Z.of_nat k) (Z.of_nat k + w)))
                   <$> seq 0 M) as Hrows.
  { rewrite Hr. unfold full_window_frames. fold M.
    rewrite <-list_fmap_compose.
    rewrite <-(mjoin_singletons
                 (λ k : nat, (LInt 0, rows_between series (Z.of_nat k) (Z.of_nat k + w)))).
    f_equal. apply Forall_fmap_ext_1, Forall_forall. intros k Hk.
    apply elem_of_seq in Hk. unfold compose.
    rewrite (embedded_frame_layout _ value j).
    - unfold values. rewrite rows_full_window by lia.
      unfold series, values. by rewrite fmap_rows_between, series_of_rows_between.
    - done.
    - rewrite rows_full_window by lia. unfold rows_between.
      by apply Forall_take, Forall_drop.
    - rewrite rows_full_window by lia. intros Hnil.
      apply (f_equal length) in Hnil. unfold rows_between in Hnil.
      rewrite length_take, length_drop in Hnil. unfold df_len in *. simpl in Hnil. lia. }
  assert (df_len e = Z.of_nat M) as Hlen
    by (unfold df_len; by rewrite Hrows, length_fmap, length_seq).
  assert (df_len one = df_len df) as Hone_len.
  { unfold df_len. rewrite <-(length_fmap snd (rows one)), <-(length_fmap snd (rows df)).
    fold (values one) (values df). rewrite Hvals. unfold series, series_of.
    by rewrite length_fmap, length_map. }
  split; [simpl; rewrite Hone_len, Hlen; lia|].
  intros i Hi. rewrite Hlen in Hi.
  exists (rows_between series (Z.of_nat i) (Z.of_nat i + w)). split.
  - unfold values, ndarray. rewrite Hrows, <-list_fmap_compose, list_lookup_fmap.
    rewrite lookup_seq_lt by lia. done.
  - rewrite getitem_run. simpl. rewrite Hone_len.
    destruct (Z.leb_spec (df_len df - w + 1) (Z.of_nat i)); [lia|].
    do 3 f_equal. rewrite window_at_inside by lia.
    by rewrite Hvals, fmap_rows_between.
Qed.
End EmbeddingExtras.

(** ** Chains of linear blocks *)

(** Consecutive pairs of a list of sizes. *)
Fixpoint size_pairs (s0 : Z) (rest : list Z) : list (Z * Z) :=
  match rest with
  | [] => []
  | s1 :: rest' => (s0, s1) :: size_pairs s1 rest'
  end.

Lemma zip_slices_pairs (s0 : Z) (rest : list Z) :
  zip (py_slice (s0 :: rest) None (Some (-1))) (py_slice (s0 :: rest) (Some 1) None)
  = size_pairs s0 rest.
Proof.
  assert (py_slice (s0 :: rest) None (Some (-1)) = take (length rest) (s0 :: rest)) as ->.
  { unfold py_slice. cbn [from_option]. unfold clamp_bound.
    destruct (Z.ltb_spec (-1) 0); [|lia].
    rewrite Z.sub_0_r. change (Z.to_nat 0) with O. rewrite drop_0.
    f_equal. simpl length. lia. }
  assert (py_slice (s0 :: rest) (Some 1) None = rest) as ->.
  { unfold py_slice. cbn [from_option]. unfold clamp_bound.
    destruct (Z.ltb_spec 1 0); [lia|].
    destruct rest as [|s1 rest].
    - reflexivity.
    - rewrite Z.min_l by (simpl length; lia). change (Z.to_nat 1) with 1%nat.
      simpl drop. apply take_ge. simpl length. lia. }
  revert s0. induction rest as [|s1 rest IH]; intros s0; [done|].
  simpl. f_equal. apply IH.
Qed.

(** The block that [_linear_block] returns. *)
Definition linear_block (io : Z * Z) : PyObj := Sequential [Linear io.1 io.2; ReLU].

Lemma nn_Linear_inv (a b : Z) (layer : PyObj) :
  nn_Linear a b = Return layer → layer = Linear a b ∧ 0 ≤ a ∧ 0 ≤ b.
Proof.
  unfold nn_Linear. destruct (negb _); [done|].
  destruct (Z.ltb_spec a 0); [done|]. destruct (Z.ltb_spec b 0); [done|].
  cbn [orb]. destruct (_ <? _); [done|]. by intros [= <-].
Qed.

Lemma nn_Linear_error (a b : Z) (e : PyError) :
  fits_int64 a = true → fits_int64 b = true →
  nn_Linear a b = Raise e → e = RuntimeError.
Proof.
  intros Ha Hb. unfold nn_Linear. rewrite Ha, Hb. cbn [andb negb].
  destruct (_ || _); [congruence|]. destruct (_ <? _); [congruence|done].
Qed.

Lemma linear_block_inv (a b : Z) (block : PyObj) :
  VAEDecoder._linear_block a b = Return block →
  block = linear_block (a, b) ∧ 0 ≤ a ∧ 0 ≤ b.
Proof.
  unfold VAEDecoder._linear_block. intros H.
  destruct (nn_Linear a b) as [layer|e] eqn:Hl; [|done].
  apply nn_Linear_inv in Hl as (-> & Ha & Hb). cbn [obind] in H.
  by injection H as <-.
Qed.

Lemma linear_block_error (a b : Z) (e : PyError) :
  fits_int64 a = true → fits_int64 b = true →
  VAEDecoder._linear_block a b = Raise e → e = RuntimeError.
Proof.
  unfold VAEDecoder._linear_block. intros Ha Hb H.
  destruct (nn_Linear a b) as [layer|e'] eqn:Hl; [done|].
  cbn [obind] in H. injection H as <-. by apply (nn_Linear_error a b).
Qed.

Lemma Forall_Exists_negative (sizes : list Z) :
  Forall (λ s, 0 ≤ s) sizes → Exists (λ s, s < 0) sizes → False.
Proof.
  rewrite Forall_forall, Exists_exists. intros Hall (s & Hs & Hneg).
  specialize (Hall s Hs). lia.
Qed.

(** The blocks that the loop over consecutive sizes built, once it returned:
    no size was negative. *)
Lemma for_each_linear_blocks_inv (s0 : Z) (rest : list Z) (blocks : list PyObj) :
  for_each (λ io : Z * Z, VAEDecoder._linear_block io.1 io.2) (size_pairs s0 rest)
  = Return blocks →
  blocks = map linear_block (size_pairs s0 rest)
  ∧ (rest ≠ [] → Forall (λ s, 0 ≤ s) (s0 :: rest)).
Proof.
  revert s0 blocks. induction rest as [|s1 rest IH]; intros s0 blocks H.
  - simpl in H. by injection H as <-.
  - cbn [size_pairs for_each fst snd] in H.
    destruct (VAEDecoder._linear_block s0 s1) as [block|e] eqn:Hb; [|done].
    apply linear_block_inv in Hb as (-> & H0 & H1). cbn [obind] in H.
    destruct (for_each _ (size_pairs s1 rest)) as [bs|e] eqn:Hbs; [|done].
    cbn [obind] in H. injection H as <-.
    apply IH in Hbs as [-> Hrest]. split; [done|]. intros _.
    constructor; [done|]. destruct rest as [|s2 rest]; [by constructor|].
    by apply Hrest.
Qed.

Lemma for_each_linear_blocks_error (s0 : Z) (rest : list Z) (e : PyError) :
  Forall (λ s, fits_int64 s = true) (s0 :: rest) →
  for_each (λ io : Z * Z, VAEDecoder._linear_block io.1 io.2) (size_pairs s0 rest)
  = Raise e →
  e = RuntimeError.
Proof.
  revert s0. induction rest as [|s1 rest IH]; intros s0 Hfit H; [done|].
  cbn [size_pairs for_each fst snd] in H.
  apply Forall_cons in Hfit as [H0 Hfit]. pose proof Hfit as Hfit'.
  apply Forall_cons in Hfit' as [H1 _].
  destruct (VAEDecoder._linear_block s0 s1) as [block|e'] eqn:Hb; cbn [obind] in H.
  - destruct (for_each _ (size_pairs s1 rest)) as [bs|e'] eqn:Hbs; [done|].
    cbn [obind] in H. injection H as <-. by apply (IH s1).
  - injection H as <-. by apply (linear_block_error s0 s1).
Qed.

Lemma for_each_linear_blocks_negative (s0 : Z) (rest : list Z) :
  rest ≠ [] → Forall (λ s, fits_int64 s = true) (s0 :: rest) →
  Exists (λ s, s < 0) (s0 :: rest) →
  for_each (λ io : Z * Z, VAEDecoder._linear_block io.1 io.2) (size_pairs s0 rest)
  = Raise RuntimeError.
Proof.
  intros Hne Hfit Hneg.
  destruct (for_each _ _) as [blocks|e] eqn:H.
  - apply for_each_linear_blocks_inv in H as [_ Hs].
    destruct (Forall_Exists_negative _ (Hs Hne) Hneg).
  - f_equal. by apply (for_each_linear_blocks_error s0 rest).
Qed.

Lemma call_shape_linear (fuel : nat) (a b : Z) (front : list Z) :
  call_shape fuel (Linear a b) (front ++ [a]) = Return (front ++ [b]).
Proof.
  destruct fuel; simpl; rewrite reverse_app; simpl;
    rewrite Z.eqb_refl, reverse_cons, reverse_involutive; done.
Qed.

Lemma call_shape_linear_mismatch (fuel : nat) (a b c : Z) (front : list Z) :
  c ≠ a → call_shape fuel (Linear a b) (front ++ [c]) = Raise RuntimeError.
Proof.
  intros Hc. destruct fuel; simpl; rewrite reverse_app; simpl;
    by destruct (Z.eqb_spec c a).
Qed.

Lemma call_shape_block (fuel : nat) (io : Z * Z) (front : list Z) :
  call_shape (S fuel) (linear_block io) (front ++ [io.1]) = Return (front ++ [io.2]).
Proof.
  unfold linear_block. simpl. rewrite call_shape_linear. simpl. by destruct fuel.
Qed.

Lemma depth_linear_blocks (pairs : list (Z * Z)) :
  depth (Sequential (map linear_block pairs)) = match pairs with [] => 1%nat | _ => 2%nat end.
Proof.
  simpl. f_equal. destruct pairs as [|p pairs]; [done|]. simpl.
  induction pairs as [|q pairs IH]; [done|]. simpl in *. lia.
Qed.

Lemma call_linear_chain (s0 : Z) (rest front : list Z) :
  call (Sequential (map linear_block (size_pairs s0 rest))) (Tensor (front ++ [s0]))
  = Return (Tensor (front ++ [default s0 (last rest)])).
Proof.
  unfold call. cbn [is_module]. rewrite depth_linear_blocks.
  destruct rest as [|s1 rest]; [done|].
  cbn [size_pairs]. set (pairs := (s0, s1) :: size_pairs s1 rest).
  change (call_shape 2 (Sequential (map linear_block pairs)) (front ++ [s0]))
    with (foldl (λ acc l, let* s := acc in call_shape 1 l s)
                (Return (front ++ [s0])) (map linear_block pairs)).
  unfold pairs. clear pairs.
  assert (∀ s0 rest,
            foldl (λ acc l, let* s := acc in call_shape 1 l s)
                  (Return (front ++ [s0])) (map linear_block (size_pairs s0 rest))
            = Return (front ++ [default s0 (last rest)])) as Hchain.
  { clear. intros s0 rest. revert s0.
    induction rest as [|s1 rest IH]; intros s0; [done|].
    cbn [size_pairs map foldl obind].
    pose proof (call_shape_block 0 (s0, s1) front) as Hb. cbn [fst snd] in Hb.
    rewrite Hb.
    rewrite IH, last_cons. by destruct (last rest). }
  change ((s0, s1) :: size_pairs s1 rest) with (size_pairs s0 (s1 :: rest)).
  by rewrite Hchain.
Qed.

Lemma foldl_raise {A} (step : A → list Z → outcome (list Z)) (layers : list A)
    (e : PyError) :
  foldl (λ acc l, let* s := acc in step l s) (Raise e) layers = Raise e.
Proof. induction layers as [|l layers IH]; [done|]. by simpl. Qed.

Lemma call_linear_chain_mismatch (s0 c : Z) (rest front : list Z) :
  rest ≠ [] → c ≠ s0 →
  call (Sequential (map linear_block (size_pairs s0 rest))) (Tensor (front ++ [c]))
  = Raise RuntimeError.
Proof.
  intros Hne Hc.
  unfold call. cbn [is_module]. rewrite depth_linear_blocks.
  destruct rest as [|s1 rest]; [done|].
  cbn [size_pairs]. set (pairs := size_pairs s1 rest).
  change (call_shape 2 (Sequential (map linear_block ((s0, s1) :: pairs))) (front ++ [c]))
    with (foldl (λ acc l, let* s := acc in call_shape 1 l s)
                (let* s := Return (front ++ [c]) in
                 call_shape 1 (linear_block (s0, s1)) s)
                (map linear_block pairs)).
  cbn [obind].
  assert (call_shape 1 (linear_block (s0, s1)) (front ++ [c]) = Raise RuntimeError) as ->.
  { change (call_shape 1 (linear_block (s0, s1)) (front ++ [c]))
      with (let* s := call_shape 0 (Linear s0 s1) (front ++ [c]) in call_shape 0 ReLU s).
    by rewrite call_shape_linear_mismatch. }
  by rewrite foldl_raise.
Qed.

(** ** The networks *)

Lemma call_linear (a b c : Z) (front : list Z) :
  call (Linear a b) (Tensor (front ++ [c]))
  = if c =? a then Return (Tensor (front ++ [b])) else Raise RuntimeError.
Proof.
  unfold call. cbn [is_module depth]. destruct (Z.eqb_spec c a) as [->|Hne].
  - by rewrite call_shape_linear.
  - by rewrite call_shape_linear_mismatch.
Qed.

(** X11.  On every decoder that the constructor returns, no size is
    negative and the module registered as [decode] maps tensors whose last
    dimension is [latent_size] to tensors whose last dimension is
    [data_size].  When the sizes are int64 and one of the latent size, the
    hidden sizes and the data size is negative, the constructor raises
    [RuntimeError]. *)
Theorem VAEDecoder_construction (params : VAEDecoderParams) :
  let sizes := latent_size params :: hidden_layer_sizes params ++ [data_size params] in
  (∀ self, VAEDecoder.__init__ params = Return self →
     Forall (λ s, 0 ≤ s) sizes
     ∧ ∃ decode,
         getattr self "decode" = Return decode
         ∧ ∀ front, call decode (Tensor (front ++ [latent_size params]))
                    = Return (Tensor (front ++ [data_size params])))
  ∧ (Forall (λ s, fits_int64 s = true) sizes → Exists (λ s, s < 0) sizes →
     VAEDecoder.__init__ params = Raise RuntimeError).
Proof.
  intros sizes. unfold VAEDecoder.__init__.
  change ([latent_size params] ++ hidden_layer_sizes params ++ [data_size params])
    with (latent_size params :: hidden_layer_sizes params ++ [data_size params]).
  rewrite zip_slices_pairs. subst sizes.
  assert (hidden_layer_sizes params ++ [data_size params] ≠ []) as Hne
    by by destruct (hidden_layer_sizes params).
  split.
  - intros self Hinit.
    destruct (for_each _ _) as [blocks|e] eqn:Hb; [|done].
    apply for_each_linear_blocks_inv in Hb as [-> Hs].
    cbn [obind] in Hinit. injection Hinit as <-.
    split; [by apply Hs|].
    eexists. split.
    + unfold getattr, setattr. cbn [is_module __dict__ _modules].
      rewrite lookup_delete_eq.
      assert (class_namespace !! "decode" = None) as -> by done.
      by rewrite lookup_insert_eq.
    + intros front. rewrite call_linear_chain. by rewrite last_snoc.
  - intros Hfit Hs. by rewrite for_each_linear_blocks_negative.
Qed.

(** What the encoder's constructor has built once it returned. *)
Lemma VAEEncoder_init_inv (params : VAEEncoderParams.t) (self : VAEEncoder.t) :
  VAEEncoder.__init__ params = Return self →
  VAEEncoderParams.hidden_layer_sizes params ≠ []
  ∧ Forall (λ s, 0 ≤ s)
           (VAEEncoderParams.data_size params
            :: VAEEncoderParams.hidden_layer_sizes params
            ++ [VAEEncoderParams.latent_size params])
  ∧ VAEEncoder.params self = params
  ∧ VAEEncoder.encode self
    = Sequential (map linear_block
                      (size_pairs (VAEEncoderParams.data_size params)
                                  (VAEEncoderParams.hidden_layer_sizes params)))
  ∧ VAEEncoder.z_mean_layer self
    = Linear (default 0 (last (VAEEncoderParams.hidden_layer_sizes params)))
             (VAEEncoderParams.latent_size params)
  ∧ VAEEncoder.z_log_var_layer self = VAEEncoder.z_mean_layer self.
Proof.
  unfold VAEEncoder.__init__.
  remember (VAEEncoderParams.hidden_layer_sizes params) as hidden eqn:Hh.
  change ([VAEEncoderParams.data_size params] ++ hidden)
    with (VAEEncoderParams.data_size params :: hidden).
  rewrite zip_slices_pairs.
  change (λ io : Z * Z, VAEEncoder._linear_block io.1 io.2)
    with (λ io : Z * Z, VAEDecoder._linear_block io.1 io.2).
  intros H.
  destruct (for_each _ _) as [blocks|e] eqn:Hb; [|done].
  apply for_each_linear_blocks_inv in Hb as [-> Hs]. cbn [obind] in H.
  unfold py_last in H. destruct (last hidden) as [width|] eqn:Hlast; [|done].
  cbn [obind] in H.
  destruct (nn_Linear width _) as [layer|e] eqn:Hl; [|done].
  apply nn_Linear_inv in Hl as (-> & Hw & Hlat). cbn [obind] in H.
  injection H as <-. cbn [VAEEncoder.params VAEEncoder.encode VAEEncoder.z_mean_layer
                          VAEEncoder.z_log_var_layer default].
  assert (hidden ≠ []) as Hne by (by intros ->).
  split; [done|]. split; [|done].
  specialize (Hs Hne). apply Forall_cons in Hs as [? ?].
  constructor; [done|]. apply Forall_app. split; [done|by constructor].
Qed.

(** With hidden layers and int64 sizes, the constructor raises nothing but
    [RuntimeError]. *)
Lemma VAEEncoder_init_error (params : VAEEncoderParams.t) (e : PyError) :
  VAEEncoderParams.hidden_layer_sizes params ≠ [] →
  Forall (λ s, fits_int64 s = true)
         (VAEEncoderParams.data_size params
          :: VAEEncoderParams.hidden_layer_sizes params
          ++ [VAEEncoderParams.latent_size params]) →
  VAEEncoder.__init__ params = Raise e → e = RuntimeError.
Proof.
  unfold VAEEncoder.__init__.
  remember (VAEEncoderParams.hidden_layer_sizes params) as hidden eqn:Hh.
  change ([VAEEncoderParams.data_size params] ++ hidden)
    with (VAEEncoderParams.data_size params :: hidden).
  rewrite zip_slices_pairs.
  change (λ io : Z * Z, VAEEncoder._linear_block io.1 io.2)
    with (λ io : Z * Z, VAEDecoder._linear_block io.1 io.2).
  intros Hne Hfit H.
  apply Forall_cons in Hfit as [Hd Hfit]. apply Forall_app in Hfit as [Hhid Hlat].
  apply Forall_inv in Hlat.
  destruct (for_each _ _) as [blocks|e'] eqn:Hb; cbn [obind] in H.
  2:{ injection H as <-.
      apply (for_each_linear_blocks_error (VAEEncoderParams.data_size params) hidden);
        [by constructor|done]. }
  unfold py_last in H. destruct (last hidden) as [width|] eqn:Hlast.
  2:{ by apply last_None in Hlast. }
  cbn [obind] in H.
  assert (fits_int64 width = true) as Hw.
  { rewrite Forall_forall in Hhid. apply Hhid.
    apply last_Some in Hlast as [l' ->]. set_solver. }
  destruct (nn_Linear width _) as [layer|e'] eqn:Hl; [done|].
  cbn [obind] in H. injection H as <-.
  by apply (nn_Linear_error width (VAEEncoderParams.latent_size params)).
Qed.

(** X12.  The encoder's constructor raises [IndexError] when
    [hidden_layer_sizes] is empty, whatever the other sizes.  With hidden
    layers and int64 sizes it raises [RuntimeError] when the data size, a
    hidden size or the latent size is negative.  So whenever it returns,
    there are hidden layers and no size is negative. *)
Theorem VAEEncoder_init_errors (params : VAEEncoderParams.t) :
  let hidden := VAEEncoderParams.hidden_layer_sizes params in
  let sizes := VAEEncoderParams.data_size params
               :: hidden ++ [VAEEncoderParams.latent_size params] in
  (hidden = [] → VAEEncoder.__init__ params = Raise IndexError)
  ∧ (hidden ≠ [] → Forall (λ s, fits_int64 s = true) sizes →
     Exists (λ s, s < 0) sizes →
     VAEEncoder.__init__ params = Raise RuntimeError)
  ∧ (∀ self, VAEEncoder.__init__ params = Return self →
     hidden ≠ [] ∧ Forall (λ s, 0 ≤ s) sizes).
Proof.
  intros hidden sizes. split; [|split].
  - intros Hnil. unfold VAEEncoder.__init__. fold hidden. rewrite Hnil.
    change ([VAEEncoderParams.data_size params] ++ [])
      with [VAEEncoderParams.data_size params].
    by rewrite zip_slices_pairs.
  - intros Hne Hfit Hneg.
    destruct (VAEEncoder.__init__ params) as [self|e] eqn:H.
    + apply VAEEncoder_init_inv in H as (_ & Hs & _).
      destruct (Forall_Exists_negative sizes Hs Hneg).
    + f_equal. by apply (VAEEncoder_init_error params).
  - intros self H. apply VAEEncoder_init_inv in H as (Hne & Hs & _). done.
Qed.

(** X13.  On a batch of shape [(B, T, F)] the encoder fails unless
    [T = data_size] and one of [F = 1], [F = B], [B = 1] holds.  When it
    succeeds, [z_mean] and [z_log_var] have shape [(B, F, latent_size)],
    and [z] has shape [(B, B, latent_size)] for [F = 1]: the noise of shape
    [(B, latent_size)] is broadcast against the feature axis. *)
Theorem VAEEncoder_forward_shapes (params : VAEEncoderParams.t) (self : VAEEncoder.t)
    (B T F : Z) :
  VAEEncoder.__init__ params = Return self → 0 ≤ B →
  let L := VAEEncoderParams.latent_size params in
  VAEEncoder.forward self (Tensor [B; T; F])
  = if T =? VAEEncoderParams.data_size params
    then (if (F =? 1) || (F =? B) || (B =? 1)
          then Return (Tensor [B; F; L], Tensor [B; F; L],
                       Tensor [B; if F =? 1 then B else F; L])
          else Raise RuntimeError)
    else Raise RuntimeError.
Proof.
  intros Hinit HB L.
  destruct (VAEEncoder_init_inv params self Hinit)
    as (Hne & Hs & Hp & Henc & Hmean & Hvar).
  assert (0 ≤ L) as HL.
  { rewrite Forall_forall in Hs. apply Hs. set_solver. }
  destruct (last (VAEEncoderParams.hidden_layer_sizes params)) as [width|] eqn:Hlast.
  2:{ by apply last_None in Hlast. }
  unfold VAEEncoder.forward. rewrite Hvar, Hmean, Henc, Hp. fold L.
  cbn [tensor_size unpack3 obind transpose_1_2 fst snd default].
  destruct (Z.eqb_spec T (VAEEncoderParams.data_size params)) as [->|HT].
  - pose proof (call_linear_chain (VAEEncoderParams.data_size params)
                  (VAEEncoderParams.hidden_layer_sizes params) [B; F]) as Hchain.
    cbn [app] in Hchain. rewrite Hchain, Hlast. cbn [obind default].
    pose proof (call_linear width L width [B; F]) as Hlin.
    cbn [app] in Hlin. unfold Datatypes.id. rewrite !Hlin, Z.eqb_refl. cbn [obind].
    unfold torch_randn. cbn [forallb].
    destruct (Z.leb_spec 0 B); [|lia]. destruct (Z.leb_spec 0 L); [|lia].
    cbn [andb obind exp_half elementwise app reverse].
    unfold reverse. cbn [rev_append broadcast_reversed obind].
    rewrite Z.eqb_refl. cbn [obind].
    destruct (Z.eqb_spec F B) as [->|HFB].
    + rewrite orb_true_r. cbn [orb obind rev_append broadcast_reversed].
      rewrite !Z.eqb_refl. cbn [obind rev_append].
      destruct (Z.eqb_spec B 1) as [->|]; done.
    + destruct (Z.eqb_spec F 1) as [->|HF1].
      * cbn [orb obind rev_append broadcast_reversed].
        rewrite !Z.eqb_refl. cbn [obind rev_append].
        destruct (Z.eqb_spec 1 B); [lia|]. done.
      * destruct (Z.eqb_spec B 1) as [->|HB1]; [|done].
        cbn [orb obind rev_append broadcast_reversed].
        rewrite !Z.eqb_refl. cbn [obind rev_append]. done.
  - pose proof (call_linear_chain_mismatch (VAEEncoderParams.data_size params) T
                  (VAEEncoderParams.hidden_layer_sizes params) [B; F] Hne HT) as Hchain.
    cbn [app] in Hchain. by rewrite Hchain.
Qed.

(** What the network's constructor has built once it returned. *)
Lemma TSFeedForward_init_inv (history_length horizon : Z) (ffn_params : TSFFNParams)
    (self : TSFeedForward.t) :
  TSFeedForward.__init__ history_length horizon ffn_params = Return self →
  hidden_widths ffn_params ≠ []
  ∧ Forall (λ s, 0 ≤ s) (history_length :: hidden_widths ffn_params ++ [horizon])
  ∧ TSFeedForward.regulate_input self
    = Linear history_length (default 0 (head (hidden_widths ffn_params)))
  ∧ TSFeedForward.hidden_layers self
    = Sequential (map linear_block
                      (size_pairs (default 0 (head (hidden_widths ffn_params)))
                                  (tail (hidden_widths ffn_params))))
  ∧ TSFeedForward.regulate_output self
    = Linear (default 0 (last (hidden_widths ffn_params))) horizon.
Proof.
  unfold TSFeedForward.__init__. intros H.
  destruct (hidden_widths ffn_params) as [|h0 widths] eqn:Hw; [done|].
  cbn [py_first obind head tail default] in H |- *.
  rewrite zip_slices_pairs in H.
  change (λ io : Z * Z, TSFeedForward._linear_block io.1 io.2)
    with (λ io : Z * Z, VAEDecoder._linear_block io.1 io.2) in H.
  destruct (nn_Linear history_length h0) as [layer|e] eqn:Hl; [|done].
  apply nn_Linear_inv in Hl as (-> & Hh & Hh0). cbn [obind] in H.
  destruct (for_each _ _) as [blocks|e] eqn:Hb; [|done].
  apply for_each_linear_blocks_inv in Hb as [-> Hs]. cbn [obind] in H.
  unfold py_last in H. rewrite last_cons in H |- *.
  set (width := match last widths with Some y => y | None => h0 end).
  assert ((match last widths with Some y => Some y | None => Some h0 end) = Some width)
    as Hwidth by (unfold width; by destruct (last widths)).
  rewrite Hwidth in H |- *. cbn [obind default] in H |- *.
  destruct (nn_Linear width horizon) as [layer|e] eqn:Hl; [|done].
  apply nn_Linear_inv in Hl as (-> & _ & Hz). cbn [obind] in H.
  injection H as <-.
  cbn [TSFeedForward.regulate_input TSFeedForward.hidden_layers
       TSFeedForward.regulate_output].
  split; [done|]. split; [|done].
  constructor; [done|]. rewrite <-app_comm_cons. constructor; [done|].
  apply Forall_app. split; [|by constructor].
  destruct widths as [|h1 widths]; [by constructor|].
  assert (Forall (λ s, 0 ≤ s) (h0 :: h1 :: widths)) as Hall by by apply Hs.
  by apply Forall_cons in Hall as [_ ?].
Qed.

(** With hidden widths and int64 sizes, the constructor raises nothing but
    [RuntimeError]. *)
Lemma TSFeedForward_init_error (history_length horizon : Z) (ffn_params : TSFFNParams)
    (e : PyError) :
  hidden_widths ffn_params ≠ [] →
  Forall (λ s, fits_int64 s = true)
         (history_length :: hidden_widths ffn_params ++ [horizon]) →
  TSFeedForward.__init__ history_length horizon ffn_params = Raise e →
  e = RuntimeError.
Proof.
  unfold TSFeedForward.__init__. intros Hne Hfit H.
  destruct (hidden_widths ffn_params) as [|h0 widths] eqn:Hw; [done|].
  cbn [py_first obind head tail default] in H.
  rewrite zip_slices_pairs in H.
  change (λ io : Z * Z, TSFeedForward._linear_block io.1 io.2)
    with (λ io : Z * Z, VAEDecoder._linear_block io.1 io.2) in H.
  apply Forall_cons in Hfit as [Hhist Hfit]. apply Forall_app in Hfit as [Hwid Hhor].
  apply Forall_inv in Hhor.
  pose proof Hwid as Hwid'. apply Forall_cons in Hwid' as [Hh0 _].
  destruct (nn_Linear history_length h0) as [layer|e'] eqn:Hl; cbn [obind] in H.
  2:{ injection H as <-. by apply (nn_Linear_error history_length h0). }
  destruct (for_each _ _) as [blocks|e'] eqn:Hb; cbn [obind] in H.
  2:{ injection H as <-. by apply (for_each_linear_blocks_error h0 widths). }
  unfold py_last in H. rewrite last_cons in H.
  set (width := match last widths with Some y => y | None => h0 end).
  assert ((match last widths with Some y => Some y | None => Some h0 end) = Some width)
    as Hwidth by (unfold width; by destruct (last widths)).
  rewrite Hwidth in H. cbn [obind] in H.
  assert (fits_int64 width = true) as Hfw.
  { unfold width. destruct (last widths) as [y|] eqn:Hlast; [|done].
    rewrite Forall_forall in Hwid. apply Hwid.
    apply last_Some in Hlast as [l' ->]. set_solver. }
  destruct (nn_Linear width horizon) as [layer'|e'] eqn:Hl'; [done|].
  cbn [obind] in H. injection H as <-. by apply (nn_Linear_error width horizon).
Qed.

(** X14.  The feed-forward network's constructor raises [IndexError] when
    [hidden_widths] is empty.  With hidden widths and int64 sizes it raises
    [RuntimeError] when the history length, a hidden width or the horizon
    is negative.  So whenever it returns, there are hidden widths and no
    size is negative. *)
Theorem TSFeedForward_init_errors (history_length horizon : Z)
    (ffn_params : TSFFNParams) :
  let widths := hidden_widths ffn_params in
  let sizes := history_length :: widths ++ [horizon] in
  (widths = [] →
   TSFeedForward.__init__ history_length horizon ffn_params = Raise IndexError)
  ∧ (widths ≠ [] → Forall (λ s, fits_int64 s = true) sizes →
     Exists (λ s, s < 0) sizes →
     TSFeedForward.__init__ history_length horizon ffn_params = Raise RuntimeError)
  ∧ (∀ self, TSFeedForward.__init__ history_length horizon ffn_params = Return self →
     widths ≠ [] ∧ Forall (λ s, 0 ≤ s) sizes).
Proof.
  intros widths sizes. split; [|split].
  - intros Hnil. unfold TSFeedForward.__init__. fold widths. by rewrite Hnil.
  - intros Hne Hfit Hneg.
    destruct (TSFeedForward.__init__ history_length horizon ffn_params)
      as [self|e] eqn:H.
    + apply TSFeedForward_init_inv in H as (_ & Hs & _).
      destruct (Forall_Exists_negative sizes Hs Hneg).
    + f_equal. by apply (TSFeedForward_init_error history_length horizon ffn_params).
  - intros self H. apply TSFeedForward_init_inv in H as (Hne & Hs & _). done.
Qed.

(** X15.  A constructed feed-forward network maps a tensor whose last
    dimension is [history_length] to one whose last dimension is [horizon],
    the other dimensions unchanged, and raises [RuntimeError] on any other
    last dimension. *)
Theorem TSFeedForward_forward_shape (history_length horizon : Z) (ffn_params : TSFFNParams)
    (self : TSFeedForward.t) (front : list Z) (d : Z) :
  TSFeedForward.__init__ history_length horizon ffn_params = Return self →
  TSFeedForward.forward self (Tensor (front ++ [d]))
  = if d =? history_length then Return (Tensor (front ++ [horizon]))
    else Raise RuntimeError.
Proof.
  intros Hinit.
  destruct (TSFeedForward_init_inv history_length horizon ffn_params self Hinit)
    as (Hne & Hs & Hin & Hhid & Hout).
  unfold TSFeedForward.forward. rewrite Hin, Hhid, Hout.
  destruct (hidden_widths ffn_params) as [|h0 widths]; [done|].
  cbn [head tail default]. rewrite call_linear.
  destruct (Z.eqb_spec d history_length) as [->|Hd]; [|done].
  cbn [obind]. rewrite call_linear_chain. cbn [obind].
  rewrite last_cons.
  destruct (last widths) as [y|]; cbn [default from_option]; unfold Datatypes.id;
    by rewrite call_linear, Z.eqb_refl.
Qed.

(** ** Concrete runs of the further properties *)

(** Closes a bound between numerals once the definitions are evaluated. *)
Ltac by_evaluation :=
  vm_compute; repeat split; first [reflexivity | discriminate].

Lemma slice_agrees_witness :
  ∃ wins,
    (TimeVAEDataset.__getitem__ (KSlice (Some 1) (Some 3) None)
       (fresh (sample_frame [1; 2; 3; 4; 5]) 2 [])).1
    = Return (TimeVAEDataset.Windows wins)
    ∧ length wins = 2%nat.
Proof.
  assert (0 < default 1 (@None Z)) as H1 by by_evaluation.
  assert (0 ≤ 1) as H2 by by_evaluation.
  assert (3 < df_len (sample_frame [1; 2; 3; 4; 5]) - 2 + 1) as H3 by by_evaluation.
  destruct (slice_agrees_with_int_access (sample_frame [1; 2; 3; 4; 5]) 2 1 3 None []
              H1 H2 H3) as (indices & wins & Hrange & Hget & Hall).
  exists wins. split; [by rewrite Hget|].
  apply Forall2_length in Hall. rewrite <-Hall.
  vm_compute in Hrange. by injection Hrange as <-.
Defined.

Lemma last_window_witness :
  (TimeVAEDataset.__getitem__ (KSlice (Some 0) (Some 4) None)
     (fresh (sample_frame [1; 2; 3; 4; 5]) 2 [])).1
  = Raise IndexError
  ∧ (TimeVAEDataset.__getitem__ (KSlice (Some 3) (Some 0) (Some (-1)))
       (fresh (sample_frame [1; 2; 3; 4; 5]) 2 [])).1
    = Return (TimeVAEDataset.Windows
                [[[Some 4]; [Some 5]]; [[Some 3]; [Some 4]]; [[Some 2]; [Some 3]]]).
Proof.
  assert (1 ≤ df_len (sample_frame [1; 2; 3; 4; 5]) - 2 + 1) as H by by_evaluation.
  destruct (last_window_beyond_slices (sample_frame [1; 2; 3; 4; 5]) 2 [] H)
    as (_ & Hfull & _ & Hdesc & _).
  split; [exact Hfull|exact Hdesc].
Defined.

Lemma consecutive_windows_witness :
  ∃ a b,
    (TimeVAEDataset.__getitem__ (KInt 1) (fresh (sample_frame [1; 2; 3; 4; 5]) 2 [])).1
    = Return (TimeVAEDataset.Window a)
    ∧ (TimeVAEDataset.__getitem__ (KInt 2) (fresh (sample_frame [1; 2; 3; 4; 5]) 2 [])).1
      = Return (TimeVAEDataset.Window b)
    ∧ drop 1 a = take 1 b.
Proof.
  assert (1 ≤ 2) as H1 by by_evaluation.
  assert (0 ≤ 1) as H2 by by_evaluation.
  assert (1 + 1 < df_len (sample_frame [1; 2; 3; 4; 5]) - 2 + 1) as H3 by by_evaluation.
  destruct (consecutive_windows_overlap (sample_frame [1; 2; 3; 4; 5]) 2 1 [] H1 H2 H3)
    as (a & b & Ha & Hb & Hoverlap & _).
  exists a, b. split; [exact (f_equal fst Ha)|].
  split; [exact (f_equal fst Hb)|]. exact Hoverlap.
Defined.

Lemma every_row_witness :
  ∃ (i : Z) (win : ndarray Z) (k : nat),
    (TimeVAEDataset.__getitem__ (KInt i) (fresh (sample_frame [1; 2; 3; 4; 5]) 2 [])).1
    = Return (TimeVAEDataset.Window win)
    ∧ win !! k = Some [Some 5].
Proof.
  assert (1 ≤ 2 ≤ df_len (sample_frame [1; 2; 3; 4; 5])) as H1 by by_evaluation.
  assert (values (sample_frame [1; 2; 3; 4; 5]) !! 4%nat = Some [Some 5]) as H2
    by reflexivity.
  destruct (every_row_in_some_window (sample_frame [1; 2; 3; 4; 5]) 2 [] 4 [Some 5] H1 H2)
    as (i & win & k & _ & Hget & Hrow).
  exists i, win, k. split; [by rewrite Hget|exact Hrow].
Defined.

Lemma whole_table_window_witness :
  (TimeVAEDataset.__getitem__ (KInt 0) (fresh (sample_frame [1; 2; 3]) 3 [])).1
  = Return (TimeVAEDataset.Window [[Some 1]; [Some 2]; [Some 3]])
  ∧ (TimeVAEDataset.__getitem__ (KInt 1) (fresh (sample_frame [1; 2; 3]) 3 [])).1
    = Raise IndexError.
Proof.
  assert (df_len (sample_frame [1; 2; 3]) ≤ 3) as H by by_evaluation.
  split.
  - rewrite (window_not_shorter_than_table (sample_frame [1; 2; 3]) 3 0 [] H);
      [reflexivity|by_evaluation].
  - rewrite (window_not_shorter_than_table (sample_frame [1; 2; 3]) 3 1 [] H);
      [reflexivity|by_evaluation].
Defined.

Lemma split_datasets_witness :
  ∃ train test,
    TimeVAEDataModule.train_val_dataset
      (data_module [1; 2; 3; 4; 5; 6; 7; 8; 9; 10] float_0_3) = Return train
    ∧ TimeVAEDataModule.test_dataset
        (data_module [1; 2; 3; 4; 5; 6; 7; 8; 9; 10] float_0_3) = Return test
    ∧ TimeVAEDataset.length train = 6
    ∧ TimeVAEDataset.length test = 2.
Proof.
  assert (TimeVAEDataModule.df_test_length
            (data_module [1; 2; 3; 4; 5; 6; 7; 8; 9; 10] float_0_3) = Return 3) as Hk
    by (vm_compute; reflexivity).
  assert (0 ≤ 3 ≤ df_len (sample_frame [1; 2; 3; 4; 5; 6; 7; 8; 9; 10])) as Hrange
    by by_evaluation.
  assert (0 ≤ 2) as Hws by by_evaluation.
  destruct (split_datasets_windows
              (data_module [1; 2; 3; 4; 5; 6; 7; 8; 9; 10] float_0_3) 3 [] Hk Hrange Hws)
    as (train & test & Htrain & Htest & Hlen1 & Hlen2 & _).
  exists train, test. split; [exact Htrain|]. split; [exact Htest|].
  split; [exact Hlen1|exact Hlen2].
Defined.

Lemma zero_test_fraction_witness :
  TimeVAEDataModule.df_test_length (data_module [1; 2; 3] (S754_zero false)) = Return 0
  ∧ predict_batch_size (data_module [1; 2; 3] (S754_zero false)) = Raise ValueError.
Proof.
  assert (TimeVAEDataModule.df_test_length (data_module [1; 2; 3] (S754_zero false))
          ≠ Raise OverflowError) as Hov by (vm_compute; discriminate).
  destruct (zero_test_fraction (data_module [1; 2; 3] (S754_zero false)) false
              eq_refl Hov) as (Hk & _ & _ & Hbatch).
  split; [exact Hk|exact Hbatch].
Defined.

Lemma time_delay_embed_labels_witness :
  ∃ embedded,
    time_delay_embed pendulum_frame 2 = Return embedded
    ∧ index embedded = [LInt 0; LInt 0; LInt 0]
    ∧ columns embedded = [LInt 0; LInt 1].
Proof.
  assert (LStr "t" ∈ columns pendulum_frame) as Ht by (repeat constructor).
  assert (1 ≤ 2 ≤ df_len pendulum_frame) as Hw by by_evaluation.
  destruct (time_delay_embed_labels pendulum_frame 2 Ht Hw)
    as (embedded & He & Hc & Hi & _).
  exists embedded. split; [exact He|]. split; [exact Hi|exact Hc].
Defined.

Lemma time_delay_embed_outcome_witness :
  time_delay_embed pendulum_frame (-1) = Raise ValueError
  ∧ time_delay_embed pendulum_frame (int64_max + 1) = Raise OverflowError
  ∧ time_delay_embed pendulum_frame 0 = Raise IndexError
  ∧ time_delay_embed pendulum_frame int64_max = Raise ValueError
  ∧ succeeds (time_delay_embed pendulum_frame 2).
Proof.
  assert (LStr "t" ∈ columns pendulum_frame) as Ht by (repeat constructor).
  assert (1 ≤ df_len pendulum_frame) as Hn by by_evaluation.
  split; [|split; [|split; [|split]]].
  - destruct (time_delay_embed_outcome pendulum_frame (-1)) as (_ & H & _).
    apply H. by_evaluation.
  - destruct (time_delay_embed_outcome pendulum_frame (int64_max + 1))
      as (_ & _ & H & _).
    apply H. by_evaluation.
  - destruct (time_delay_embed_outcome pendulum_frame 0) as (_ & _ & _ & _ & _ & H & _).
    by apply H.
  - destruct (time_delay_embed_outcome pendulum_frame int64_max)
      as (_ & _ & _ & _ & _ & _ & H).
    apply H; [by_evaluation|done..].
  - destruct (time_delay_embed_outcome pendulum_frame 2) as (H & _).
    apply H. split; [by_evaluation|done].
Defined.

Lemma embedding_matches_dataset_witness :
  ∃ embedded one,
    time_delay_embed pendulum_frame 2 = Return embedded
    ∧ getitem_columns pendulum_frame [LStr "theta"] = Return one
    ∧ TimeVAEDataset.length (TimeVAEDataset.__init__ one 2) = df_len embedded.
Proof.
  assert (layout (columns pendulum_frame) (LStr "theta") 1) as Hl
    by (split; [discriminate|right; split; reflexivity]).
  assert (Forall (λ r : label * list (cell Z), length r.2 = 2%nat) (rows pendulum_frame))
    as Hwf by (repeat constructor).
  assert (1 ≤ 2 ≤ df_len pendulum_frame) as Hw by by_evaluation.
  destruct (embedding_matches_dataset pendulum_frame (LStr "theta") 1 2 [] Hl Hwf Hw)
    as (embedded & one & He & Hone & Hlen & _).
  exists embedded, one. split; [exact He|]. split; [exact Hone|exact Hlen].
Defined.

Lemma VAEEncoder_forward_witness :
  ∃ self,
    VAEEncoder.__init__ (VAEEncoderParams.mk [40; 30] 10 50) = Return self
    ∧ VAEEncoder.forward self (Tensor [32; 50; 1])
      = Return (Tensor [32; 1; 10], Tensor [32; 1; 10], Tensor [32; 32; 10]).
Proof.
  destruct (VAEEncoder.__init__ (VAEEncoderParams.mk [40; 30] 10 50)) as [self|e] eqn:E.
  - exists self. split; [reflexivity|].
    assert (0 ≤ 32) as HB by by_evaluation.
    exact (VAEEncoder_forward_shapes _ self 32 50 1 E HB).
  - vm_compute in E. discriminate.
Defined.

Lemma TSFeedForward_forward_witness :
  ∃ self,
    TSFeedForward.__init__ 100 1 (mkTSFFNParams [512; 256; 64; 256; 512]) = Return self
    ∧ TSFeedForward.forward self (Tensor [32; 100]) = Return (Tensor [32; 1]).
Proof.
  destruct (TSFeedForward.__init__ 100 1 (mkTSFFNParams [512; 256; 64; 256; 512]))
    as [self|e] eqn:E.
  - exists self. split; [reflexivity|].
    exact (TSFeedForward_forward_shape 100 1 _ self [32] 100 E).
  - vm_compute in E. discriminate.
Defined.

Lemma VAEDecoder_construction_witness :
  ∃ self decode,
    VAEDecoder.__init__ (mkVAEDecoderParams [40; 30] 10 50) = Return self
    ∧ getattr self "decode" = Return decode
    ∧ call decode (Tensor [32; 10]) = Return (Tensor [32; 50]).
Proof.
  destruct (VAEDecoder.__init__ (mkVAEDecoderParams [40; 30] 10 50)) as [self|e] eqn:E.
  - destruct (proj1 (VAEDecoder_construction (mkVAEDecoderParams [40; 30] 10 50)) self E)
      as (_ & decode & Hget & Hcall).
    exists self, decode. split; [reflexivity|]. split; [exact Hget|].
    exact (Hcall [32]).
  - vm_compute in E. discriminate.
Defined.

Lemma VAEEncoder_init_witness :
  VAEEncoder.__init__ (VAEEncoderParams.mk [] 10 50) = Raise IndexError
  ∧ VAEEncoder.__init__ (VAEEncoderParams.mk [40; -30] 10 50) = Raise RuntimeError
  ∧ ∃ self,
      VAEEncoder.__init__ (VAEEncoderParams.mk [40; 30] 10 50) = Return self
      ∧ Forall (λ s, 0 ≤ s) [50; 40; 30; 10].
Proof.
  split; [|split].
  - exact (proj1 (VAEEncoder_init_errors (VAEEncoderParams.mk [] 10 50)) eq_refl).
  - refine (proj1 (proj2 (VAEEncoder_init_errors (VAEEncoderParams.mk [40; -30] 10 50)))
              _ _ _).
    + discriminate.
    + repeat constructor.
    + do 2 apply Exists_cons_tl. apply Exists_cons_hd. lia.
  - destruct (VAEEncoder.__init__ (VAEEncoderParams.mk [40; 30] 10 50))
      as [self|e] eqn:E.
    + exists self. split; [reflexivity|].
      exact (proj2 (proj2 (proj2 (VAEEncoder_init_errors
                                    (VAEEncoderParams.mk [40; 30] 10 50))) self E)).
    + vm_compute in E. discriminate.
Defined.

Lemma TSFeedForward_init_witness :
  TSFeedForward.__init__ 100 1 (mkTSFFNParams []) = Raise IndexError
  ∧ TSFeedForward.__init__ 100 (-1) (mkTSFFNParams [512; 256]) = Raise RuntimeError
  ∧ ∃ self,
      TSFeedForward.__init__ 100 1 (mkTSFFNParams [512; 256]) = Return self
      ∧ Forall (λ s, 0 ≤ s) [100; 512; 256; 1].
Proof.
  split; [|split].
  - exact (proj1 (TSFeedForward_init_errors 100 1 (mkTSFFNParams [])) eq_refl).
  - refine (proj1 (proj2 (TSFeedForward_init_errors 100 (-1) (mkTSFFNParams [512; 256])))
              _ _ _).
    + discriminate.
    + repeat constructor.
    + do 3 apply Exists_cons_tl. apply Exists_cons_hd. lia.
  - destruct (TSFeedForward.__init__ 100 1 (mkTSFFNParams [512; 256]))
      as [self|e] eqn:E.
    + exists self. split; [reflexivity|].
      exact (proj2 (proj2 (proj2 (TSFeedForward_init_errors
                                    100 1 (mkTSFFNParams [512; 256]))) self E)).
    + vm_compute in E. discriminate.
Defined.

(** ** Negative int keys, warnings, and what the embedding reads *)

Section MoreDatasetExtras.
Context {V : Type}.
Implicit Types (df : DataFrame V).

(** X16.  When [1 <= window_size <= rows], a negative int key down to
    [-rows] is never refused.  Below [-window_size] it counts from the end
    of the table and returns the [window_size] rows from row [rows + idx]
    on; the last [window_size] negative keys return an empty array. *)
Theorem negative_index_windows df (window_size idx : Z) (sink : list string) :
  1 ≤ window_size ≤ df_len df → - df_len df ≤ idx < 0 →
  let w := fresh df window_size sink in
  let n := df_len df in
  TimeVAEDataset.__getitem__ (KInt idx) w
  = (Return (TimeVAEDataset.Window
               (if idx <? - window_size
                then rows_between (values df) (n + idx) (n + idx + window_size)
                else [])), w).
Proof.
  intros Hw Hi w n. rewrite getitem_run. simpl. fold n.
  destruct (Z.leb_spec (n - window_size + 1) idx); [lia|].
  do 3 f_equal. unfold window_at. simpl. rewrite values_df_slice.
  assert (Z.of_nat (length (values df)) = n) as Hn
    by (unfold values, n, df_len; by rewrite length_fmap).
  unfold py_slice, rows_between. cbn [from_option]. rewrite Hn.
  unfold clamp_bound. destruct (Z.ltb_spec idx 0); [|lia].
  rewrite (Z.max_l (idx + n) 0) by lia.
  destruct (Z.ltb_spec idx (- window_size)).
  - destruct (Z.ltb_spec (window_size + idx) 0); [|lia].
    rewrite Z.max_l by lia. f_equal; [lia|]. f_equal. lia.
  - destruct (Z.ltb_spec (window_size + idx) 0); [lia|].
    rewrite Z.min_l by lia.
    replace (Z.to_nat (window_size + idx - (idx + n))) with O by lia.
    apply take_0.
Qed.
End MoreDatasetExtras.

Section MoreValidationExtras.
Context {V : Type}.
Implicit Types (w : TimeVAEDataset.World V).

(** X17.  On a table with a [DatetimeIndex], validation logs
    ["Dataframe has null"] exactly when some cell is null and
    ["Dataframe index is not sorted"] exactly when the index is not in
    non-decreasing order (repeated stamps in order are accepted); it logs
    nothing else, and the null warning comes first. *)
Theorem validate_dataframe_warnings w :
  let df := TimeVAEDataset.dataframe (TimeVAEDataset.self w) in
  index_type df = DatetimeIndex →
  ∃ logged,
    TimeVAEDataset.sink (TimeVAEDataset._validate_dataframe w).2
    = TimeVAEDataset.sink w ++ logged
    ∧ ("Dataframe has null" ∈ logged ↔ ∃ row, row ∈ values df ∧ None ∈ row)
    ∧ ("Dataframe index is not sorted" ∈ logged ↔ ¬ Sorted label_le (index df))
    ∧ (∃ first second,
         logged = first ++ second
         ∧ (first = [] ∨ first = ["Dataframe has null"])
         ∧ (second = [] ∨ second = ["Dataframe index is not sorted"])).
Proof.
  intros df Hd.
  unfold TimeVAEDataset._validate_dataframe, TimeVAEDataset.bind,
    TimeVAEDataset.getattr, TimeVAEDataset.raise, TimeVAEDataset.ret,
    TimeVAEDataset.logger_warning. simpl. fold df.
  rewrite (bool_decide_eq_true_2 _ Hd). simpl.
  pose proof (has_na_iff df) as Hna.
  pose proof (has_index_sorted_iff (index df)) as Hsorted.
  destruct (isnull_any df) eqn:Enull; simpl;
    destruct (index_equals (index df) (sort_values (index df))) eqn:Esorted; simpl.
  - exists ["Dataframe has null"]. split; [done|].
    split; [split; [intros _; by apply Hna|intros _; by left]|].
    split.
    + split; [intros Hin; apply list_elem_of_In in Hin; simpl in Hin;
              destruct Hin as [Hin|[]]; discriminate|].
      intros Hns. destruct Hns. by apply Hsorted.
    + exists ["Dataframe has null"], []. split; [done|]. split; [by right|by left].
  - exists ["Dataframe has null"; "Dataframe index is not sorted"].
    split; [by rewrite <-app_assoc|].
    split; [split; [intros _; by apply Hna|intros _; by left]|].
    split.
    + split; [|intros _; right; by left].
      intros _ Hs. apply Hsorted in Hs. congruence.
    + exists ["Dataframe has null"], ["Dataframe index is not sorted"].
      split; [done|]. split; by right.
  - exists []. split; [by rewrite app_nil_r|].
    split; [split; [intros Hin; by apply elem_of_nil in Hin|]|].
    { intros Hex. apply Hna in Hex. congruence. }
    split.
    + split; [intros Hin; by apply elem_of_nil in Hin|].
      intros Hns. destruct Hns. by apply Hsorted.
    + exists [], []. split; [done|]. split; by left.
  - exists ["Dataframe index is not sorted"]. split; [done|].
    split.
    { split; [intros Hin; apply list_elem_of_In in Hin; simpl in Hin;
              destruct Hin as [Hin|[]]; discriminate|].
      intros Hex. apply Hna in Hex. congruence. }
    split.
    + split; [|intros _; by left].
      intros _ Hs. apply Hsorted in Hs. congruence.
    + exists [], ["Dataframe index is not sorted"].
      split; [done|]. split; [by left|by right].
Qed.
End MoreValidationExtras.

Section MoreEmbeddingExtras.
Context {V : Type}.
Implicit Types (df : DataFrame V).

Lemma time_delay_embed_concat df (w : Z) :
  LStr "t" ∈ columns df → 1 ≤ w ≤ df_len df →
  time_delay_embed df w = concat (full_window_frames df w).
Proof.
  intros Ht Hw. rewrite time_delay_embed_loop by lia.
  rewrite (embed_all_windows df w) by (done || lia). simpl. f_equal.
  unfold py_slice, full_window_frames, df_len in *. simpl.
  rewrite !length_map, length_seq.
  rewrite clamp_bound_inside by lia.
  rewrite take_ge by (rewrite length_drop, !length_map, length_seq; lia).
  rewrite <-!fmap_drop, drop_seq. simpl.
  replace (length (rows df) - Z.to_nat (w - 1))%nat
    with (Z.to_nat (Z.of_nat (length (rows df)) - w + 1)) by lia.
  set (M := Z.to_nat (Z.of_nat (length (rows df)) - w + 1)).
  replace (seq (Z.to_nat (w - 1)) M) with (Nat.add (Z.to_nat (w - 1)) <$> seq 0 M)
    by (rewrite fmap_add_seq; f_equal; lia).
  by rewrite <-!list_fmap_compose.
Qed.

Lemma full_window_frames_layout df (value : label) (j : nat) (w : Z) :
  layout (columns df) value j →
  Forall (λ r, length r.2 = 2%nat) (rows df) →
  1 ≤ w ≤ df_len df →
  full_window_frames df w
  = (λ k : nat,
       {| index_type := RangeIndex;
          columns := range_labels (Z.to_nat w);
          rows := [(LInt 0, rows_between (series_of j (values df))
                                         (Z.of_nat k) (Z.of_nat k + w))] |})
    <$> seq 0 (Z.to_nat (df_len df - w + 1)).
Proof.
  intros Hl Hwf Hw. unfold full_window_frames.
  apply Forall_fmap_ext_1, Forall_forall. intros k Hk. apply elem_of_seq in Hk.
  set (f := rolling_window df w (Z.to_nat (w - 1) + k)).
  assert (rows f = rows_between (rows df) (Z.of_nat k) (Z.of_nat k + w)) as Hrows
    by (apply rows_full_window; lia).
  assert (LStr "t" ∈ columns f) as Ht
    by (destruct Hl as [_ [[_ Hc]|[_ Hc]]]; simpl; rewrite Hc; repeat constructor).
  assert (rows f ≠ []) as Hne.
  { rewrite Hrows. intros Hnil. apply (f_equal length) in Hnil.
    unfold rows_between in Hnil. rewrite length_take, length_drop in Hnil.
    unfold df_len in *. simpl in Hnil. lia. }
  assert (Forall (λ r, length r.2 = 2%nat) (rows f)) as Hwf'
    by (rewrite Hrows; unfold rows_between; by apply Forall_take, Forall_drop).
  pose proof (embed_window_general f Ht Hne) as H1.
  rewrite (embed_window_frame f value j Hl Hwf' Hne) in H1.
  assert (∀ x y : DataFrame V, Return x = Return y → x = y) as Hinj
    by (intros x y Hxy; congruence).
  apply Hinj in H1. rewrite <-H1. f_equal.
  - unfold range_labels. do 2 f_equal. rewrite Hrows. apply Nat2Z.inj.
    rewrite length_rows_between; unfold df_len in *; lia.
  - do 2 f_equal. unfold values. rewrite Hrows.
    by rewrite fmap_rows_between, series_of_rows_between.
Qed.

(** X18.  On frames made of [t] and one value column, the embedding reads
    the value column only: two frames that hold the same values in that
    column give the same result, whatever their time stamps, index labels,
    column order and column name. *)
Theorem time_delay_embed_reads_values_only df df' (value value' : label)
    (j j' : nat) (w : Z) :
  layout (columns df) value j → layout (columns df') value' j' →
  Forall (λ r, length r.2 = 2%nat) (rows df) →
  Forall (λ r, length r.2 = 2%nat) (rows df') →
  series_of j (values df) = series_of j' (values df') →
  1 ≤ w ≤ df_len df →
  time_delay_embed df w = time_delay_embed df' w
  ∧ succeeds (time_delay_embed df w).
Proof.
  intros Hl Hl' Hwf Hwf' Hseries Hw.
  assert (df_len df' = df_len df) as Hlen.
  { apply (f_equal length) in Hseries. unfold series_of, values in Hseries.
    rewrite ?length_map, ?length_fmap in Hseries. unfold df_len. lia. }
  assert (LStr "t" ∈ columns df) as Ht
    by (destruct Hl as [_ [[_ Hc]|[_ Hc]]]; rewrite Hc; repeat constructor).
  assert (LStr "t" ∈ columns df') as Ht'
    by (destruct Hl' as [_ [[_ Hc]|[_ Hc]]]; rewrite Hc; repeat constructor).
  split.
  - rewrite !time_delay_embed_concat by (done || lia).
    rewrite (full_window_frames_layout df value j) by done.
    rewrite (full_window_frames_layout df' value' j') by (done || lia).
    by rewrite Hseries, Hlen.
  - destruct (time_delay_embed_frames df w Ht Hw) as (e & He & _). by exists e.
Qed.
End MoreEmbeddingExtras.

Lemma negative_index_witness :
  (TimeVAEDataset.__getitem__ (KInt (-3)) (fresh (sample_frame [1; 2; 3; 4; 5]) 2 [])).1
  = Return (TimeVAEDataset.Window [[Some 3]; [Some 4]])
  ∧ (TimeVAEDataset.__getitem__ (KInt (-2)) (fresh (sample_frame [1; 2; 3; 4; 5]) 2 [])).1
    = Return (TimeVAEDataset.Window []).
Proof.
  assert (1 ≤ 2 ≤ df_len (sample_frame [1; 2; 3; 4; 5])) as Hw by by_evaluation.
  assert (- df_len (sample_frame [1; 2; 3; 4; 5]) ≤ -3 < 0) as H3 by by_evaluation.
  assert (- df_len (sample_frame [1; 2; 3; 4; 5]) ≤ -2 < 0) as H2 by by_evaluation.
  split.
  - exact (f_equal fst (negative_index_windows (sample_frame [1; 2; 3; 4; 5]) 2 (-3) []
                          Hw H3)).
  - exact (f_equal fst (negative_index_windows (sample_frame [1; 2; 3; 4; 5]) 2 (-2) []
                          Hw H2)).
Defined.

(** A table with a [DatetimeIndex] whose stamps are out of order. *)
Definition unsorted_frame : DataFrame Z :=
  {| index_type := DatetimeIndex;
     columns := [LStr "theta"];
     rows := [ (LInt 20, [Some 1]); (LInt 10, [None]) ] |}.

Lemma validate_dataframe_warnings_witness :
  ∃ logged,
    TimeVAEDataset.sink
      (TimeVAEDataset._validate_dataframe (fresh unsorted_frame 1 [])).2
    = [] ++ logged
    ∧ "Dataframe has null" ∈ logged
    ∧ "Dataframe index is not sorted" ∈ logged.
Proof.
  destruct (validate_dataframe_warnings (fresh unsorted_frame 1 []) eq_refl)
    as (logged & Hsink & Hnull & Hsorted & _).
  exists logged. split; [exact Hsink|]. split.
  - apply Hnull. exists [None]. split; [|by left]. right. by left.
  - apply Hsorted. intros Hs. apply has_index_sorted_iff in Hs.
    vm_compute in Hs. discriminate.
Defined.

Lemma validate_dataframe_lenient_witness :
  (TimeVAEDataset._validate_dataframe (fresh unsorted_frame 1 [])).1 = Return tt
  ∧ TimeVAEDataset.sink
      (TimeVAEDataset._validate_dataframe (fresh unsorted_frame 1 [])).2
    = ["Dataframe has null"; "Dataframe index is not sorted"]
  ∧ (TimeVAEDataset._validate_dataframe (fresh (sample_frame [1; 2]) 1 [])).1
    = Raise TypeError.
Proof.
  destruct (validate_dataframe_lenient (fresh unsorted_frame 1 []))
    as (_ & Hret & _ & _ & Hlog).
  destruct (validate_dataframe_lenient (fresh (sample_frame [1; 2]) 1 []))
    as (Hraise & _).
  split; [by apply Hret|]. split; [|apply Hraise; discriminate].
  destruct (Hlog eq_refl) as (null_warning & order_warning & Hsink & Hn & _ & Ho & _).
  assert (null_warning = ["Dataframe has null"]) as ->.
  { apply Hn. exists [None]. split; [|by left]. right. by left. }
  assert (order_warning = ["Dataframe index is not sorted"]) as ->.
  { apply Ho. intros Hs. apply has_index_sorted_iff in Hs.
    vm_compute in Hs. discriminate. }
  exact Hsink.
Defined.

(** The same values as [pendulum_frame], with other stamps, labels and
    column order. *)
Definition relabelled_frame : DataFrame Z :=
  {| index_type := DatetimeIndex;
     columns := [LStr "angle"; LStr "t"];
     rows := [ (LInt 100, [Some 10; Some 7]); (LInt 200, [Some 11; Some 7]);
               (LInt 300, [Some 12; Some 9]); (LInt 400, [Some 13; Some 9]) ] |}.

Lemma time_delay_embed_reads_values_witness :
  time_delay_embed pendulum_frame 2 = time_delay_embed relabelled_frame 2.
Proof.
  assert (layout (columns pendulum_frame) (LStr "theta") 1) as Hl
    by (split; [discriminate|right; split; reflexivity]).
  assert (layout (columns relabelled_frame) (LStr "angle") 0) as Hl'
    by (split; [discriminate|left; split; reflexivity]).
  assert (Forall (λ r : label * list (cell Z), length r.2 = 2%nat) (rows pendulum_frame))
    as Hwf by (repeat constructor).
  assert (Forall (λ r : label * list (cell Z), length r.2 = 2%nat) (rows relabelled_frame))
    as Hwf' by (repeat constructor).
  assert (1 ≤ 2 ≤ df_len pendulum_frame) as Hw by by_evaluation.
  exact (proj1 (time_delay_embed_reads_values_only pendulum_frame relabelled_frame
                  (LStr "theta") (LStr "angle") 1 0 2 Hl Hl' Hwf Hwf' eq_refl Hw)).
Defined.
